(** * Invoice server actions (app/lib/actions.ts): a shallow embedding

    The repository holds two versions of [app/lib/actions.ts]: the version
    whose [createInvoice] reports field errors as a value ([Validated]
    below) and the version that raises on invalid input ([Basic] below).
    Both are written against three libraries: zod 3 (validation),
    postgres.js (the [sql] tagged template) and next ([revalidatePath],
    [redirect]).  The libraries' observable behaviour is embedded in the
    modules [JS], [Zod] and [Runtime]; the two versions of the file are
    then transcribed line by line. *)

From Stdlib Require Import ZArith Floats Lia Ascii.
From stdpp Require Import gmap strings list.

Local Open Scope Z_scope.

(** ** JavaScript values, numbers and dates *)
Module JS.

(** A JavaScript string, one [ascii] per code unit (code units below 256). *)
Definition code (c : ascii) : Z := Z.of_N (Ascii.N_of_ascii c).

(** The values [FormData.get] can return: [null] when the field is absent,
    a string, or a [File]. *)
Inductive Value :=
| Null
| Str (s : string)
| File (name : string).

(** [FormData]: the submitted entries in order; a name may occur twice. *)
Definition FormData := list (string * Value).

(** [formData.get(name)]: the first entry of that name, [null] if none. *)
Fixpoint get (formData : FormData) (name : string) : Value :=
  match formData with
  | [] => Null
  | (k, v) :: rest => if String.eqb k name then v else get rest name
  end.

(** *** [Number(value)] *)

(** StrWhiteSpaceChar, restricted to the code units a [string] holds:
    TAB, LF, VT, FF, CR, SP and NBSP. *)
Definition isStrWhiteSpaceChar (c : ascii) : bool :=
  let n := code c in
  ((9 <=? n) && (n <=? 13)) || (n =? 32) || (n =? 160).

Fixpoint trimStart (s : string) : string :=
  match s with
  | String c s' => if isStrWhiteSpaceChar c then trimStart s' else s
  | EmptyString => s
  end.

Fixpoint trimEnd (s : string) : string :=
  match s with
  | String c s' =>
      match trimEnd s' with
      | EmptyString => if isStrWhiteSpaceChar c then EmptyString else String c EmptyString
      | t => String c t
      end
  | EmptyString => EmptyString
  end.

Definition trim (s : string) : string := trimEnd (trimStart s).

(** The value of a digit in the given radix, [None] for any other code unit. *)
Definition digitValue (radix : Z) (c : ascii) : option Z :=
  let n := code c in
  let d := if (48 <=? n) && (n <=? 57) then n - 48
           else if (97 <=? n) && (n <=? 102) then n - 87
           else if (65 <=? n) && (n <=? 70) then n - 55
           else radix in
  if d <? radix then Some d else None.

(** The longest prefix of digits: its value on top of [acc], the number of
    digits read, and the rest of the string. *)
Fixpoint spanDigits (radix : Z) (s : string) (acc count : Z) : Z * Z * string :=
  match s with
  | String c s' =>
      match digitValue radix c with
      | Some d => spanDigits radix s' (radix * acc + d) (count + 1)
      | None => (acc, count, s)
      end
  | EmptyString => (acc, count, s)
  end.

(** The Number value for the real [m * 2^e], round to nearest, ties to even. *)
Definition roundBinary (negative : bool) (m e : Z) : float :=
  SF2Prim (binary_normalize prec emax (if negative then - m else m) e negative).

(** The Number value for the real [m * 10^e10], [0 <= m]: an integer is
    rounded as it is; a quotient [m / 10^k] is first cut to at least 64
    significant bits followed by a sticky bit, which rounds the same way. *)
Definition roundDecimal (negative : bool) (m e10 : Z) : float :=
  if m =? 0 then roundBinary negative 0 0
  else if 0 <=? e10 then roundBinary negative (m * 10 ^ e10) 0
  else
    let d := 10 ^ (- e10) in
    let s := Z.max 0 (65 + Z.log2 d - Z.log2 m) in
    let n := m * 2 ^ s in
    let sticky := if n mod d =? 0 then 0 else 1 in
    roundBinary negative (2 * (n / d) + sticky) (- s - 1).

(** ExponentPart_opt followed by the end of the string: the exponent. *)
Definition exponentPart (s : string) : option Z :=
  match s with
  | EmptyString => Some 0
  | String c s' =>
      if (code c =? 101) || (code c =? 69) then
        let '(negative, digits) :=
          match s' with
          | String "+" t => (false, t)
          | String "-" t => (true, t)
          | _ => (false, s')
          end in
        match spanDigits 10 digits 0 0 with
        | (e, count, EmptyString) =>
            if 0 <? count then Some (if negative then - e else e) else None
        | _ => None
        end
      else None
  end.

(** StrUnsignedDecimalLiteral. *)
Definition unsignedDecimalLiteral (negative : bool) (s : string) : float :=
  if String.eqb s "Infinity" then (if negative then neg_infinity else infinity)
  else
    let '(int, nInt, afterInt) := spanDigits 10 s 0 0 in
    let '(mant, nFrac, afterFrac) :=
      match afterInt with
      | String "." t => let '(m, n, r) := spanDigits 10 t int 0 in (m, n, Some r)
      | _ => (int, 0, if 0 <? nInt then Some afterInt else None)
      end in
    match afterFrac with
    | Some rest =>
        if 0 <? nInt + nFrac then
          match exponentPart rest with
          | Some e => roundDecimal negative mant (e - nFrac)
          | None => nan
          end
        else nan
    | None => nan
    end.

(** NonDecimalIntegerLiteral: the digits after [0x], [0o] or [0b]. *)
Definition nonDecimalIntegerLiteral (radix : Z) (digits : string) : float :=
  match spanDigits radix digits 0 0 with
  | (n, count, EmptyString) => if 0 <? count then roundBinary false n 0 else nan
  | _ => nan
  end.

(** StringToNumber. *)
Definition StringToNumber (str : string) : float :=
  match trim str with
  | EmptyString => PrimFloat.zero
  | String "0" (String "x" t) | String "0" (String "X" t) => nonDecimalIntegerLiteral 16 t
  | String "0" (String "o" t) | String "0" (String "O" t) => nonDecimalIntegerLiteral 8 t
  | String "0" (String "b" t) | String "0" (String "B" t) => nonDecimalIntegerLiteral 2 t
  | String "+" t => unsignedDecimalLiteral false t
  | String "-" t => unsignedDecimalLiteral true t
  | t => unsignedDecimalLiteral false t
  end.

(** [Number(value)]: [null] is [+0]; a [File] converts to the string
    ["[object File]"], which is not numeric. *)
Definition Number (value : Value) : float :=
  match value with
  | Null => PrimFloat.zero
  | Str s => StringToNumber s
  | File _ => nan
  end.

(** *** [new Date().toISOString().split('T')[0]] *)

(** A time value: milliseconds since 1970-01-01T00:00:00Z. *)
Definition msPerDay : Z := 86400000.
Definition Day (t : Z) : Z := t / msPerDay.
Definition TimeWithinDay (t : Z) : Z := t mod msPerDay.

(** The proleptic Gregorian date of a day number, by 400-year eras of
    146097 days counted from 0000-03-01: (year, month 1..12, day 1..31). *)
Definition civilFromDays (z : Z) : Z * Z * Z :=
  let z := z + 719468 in
  let era := z / 146097 in
  let doe := z mod 146097 in
  let yoe := (doe - doe / 1460 + doe / 36524 - doe / 146096) / 365 in
  let doy := doe - (365 * yoe + yoe / 4 - yoe / 100) in
  let mp := (5 * doy + 2) / 153 in
  let d := doy - (153 * mp + 2) / 5 + 1 in
  let m := if mp <? 10 then mp + 3 else mp - 9 in
  let y := yoe + era * 400 in
  (if m <=? 2 then y + 1 else y, m, d).

Definition YearFromTime (t : Z) : Z := (civilFromDays (Day t)).1.1.
(** [MonthFromTime] counts from 0 (January). *)
Definition MonthFromTime (t : Z) : Z := (civilFromDays (Day t)).1.2 - 1.
Definition DateFromTime (t : Z) : Z := (civilFromDays (Day t)).2.
Definition HourFromTime (t : Z) : Z := TimeWithinDay t / 3600000.
Definition MinFromTime (t : Z) : Z := (TimeWithinDay t / 60000) mod 60.
Definition SecFromTime (t : Z) : Z := (TimeWithinDay t / 1000) mod 60.
Definition msFromTime (t : Z) : Z := TimeWithinDay t mod 1000.

Definition digitChar (d : Z) : ascii := ascii_of_N (Z.to_N (48 + d)).

(** The last [width] decimal digits of [n], in front of [acc]. *)
Fixpoint padDigits (width : nat) (n : Z) (acc : string) : string :=
  match width with
  | O => acc
  | S w => padDigits w (n / 10) (String (digitChar (n mod 10)) acc)
  end.

(** The year of an ISO string: four digits from 0000 to 9999, otherwise a
    sign and six digits. *)
Definition isoYear (y : Z) (acc : string) : string :=
  if (0 <=? y) && (y <=? 9999) then padDigits 4 y acc
  else String (if y <? 0 then "-"%char else "+"%char) (padDigits 6 (Z.abs y) acc).

(** [Date.prototype.toISOString]: [YYYY-MM-DDTHH:mm:ss.sssZ]. *)
Definition toISOString (t : Z) : string :=
  isoYear (YearFromTime t) (String "-"
    (padDigits 2 (MonthFromTime t + 1) (String "-"
    (padDigits 2 (DateFromTime t) (String "T"
    (padDigits 2 (HourFromTime t) (String ":"
    (padDigits 2 (MinFromTime t) (String ":"
    (padDigits 2 (SecFromTime t) (String "."
    (padDigits 3 (msFromTime t) "Z")))))))))))).

(** [s.split(sep)[0]] for a one-character separator: the part of [s]
    before the first [sep], all of [s] when there is none. *)
Fixpoint split_0 (sep : ascii) (s : string) : string :=
  match s with
  | EmptyString => EmptyString
  | String c s' => if Ascii.eqb c sep then EmptyString else String c (split_0 sep s')
  end.

End JS.

(** ** zod 3: the schemas the actions build, and how they parse *)
Module Zod.
Import JS.

Inductive ZodIssueCode := invalid_type | invalid_enum_value | too_small.

Record ZodIssue := {
  code : ZodIssueCode;
  path : list string;
  message : string;
}.

(** [ZodError]: the issues of a failed parse, in the order they were raised. *)
Definition ZodError := list ZodIssue.

(** The parameters given when a schema is created; the actions only ever
    pass [invalid_type_error]. *)
Record RawCreateParams := { invalid_type_error : option string }.
Definition noParams : RawCreateParams := {| invalid_type_error := None |}.

(** [.gt(value, { message })] and [.gte] add a [min] check to a number schema. *)
Record ZodNumberCheck := check_min {
  value : float;
  inclusive : bool;
  check_message : string;
}.

Inductive ZodType : Type → Type :=
| ZodString (params : RawCreateParams) : ZodType string
| ZodNumber (checks : list ZodNumberCheck) : ZodType float   (* z.coerce.number() *)
| ZodEnum (values : list string) (params : RawCreateParams) : ZodType string.

Definition string_ (params : RawCreateParams) : ZodType string := ZodString params.
Definition coerce_number : ZodType float := ZodNumber [].
Definition enum (values : list string) (params : RawCreateParams) : ZodType string :=
  ZodEnum values params.

(** [schema.gt(value, { message })]: one more check, after those present. *)
Definition gt (schema : ZodType float) (v : float) (msg : string) : ZodType float :=
  match schema in ZodType T return ZodType T with
  | ZodNumber checks =>
      ZodNumber (checks ++ [{| value := v; inclusive := false; check_message := msg |}])
  | other => other
  end.

(** [util.getParsedType] on the values of a form. *)
Definition getParsedType (data : Value) : string :=
  match data with
  | Null => "null"
  | Str _ => "string"
  | File _ => "object"
  end.

(** [util.joinValues]: each value in single quotes, joined by [" | "]. *)
Fixpoint joinValues (values : list string) : string :=
  match values with
  | [] => ""
  | [v] => "'" +:+ v +:+ "'"
  | v :: rest => "'" +:+ v +:+ "' | " +:+ joinValues rest
  end.

(** The default (English) error map. *)
Definition defaultInvalidType (expected received : string) : string :=
  "Expected " +:+ expected +:+ ", received " +:+ received.
Definition defaultInvalidEnumValue (options : list string) (received : string) : string :=
  "Invalid enum value. Expected " +:+ joinValues options +:+ ", received '" +:+ received +:+ "'".

(** The error map a schema gets from its parameters: it replaces the
    message of an [invalid_type] issue on data that is not [undefined]
    (no value of a form is) and keeps the default one for any other issue. *)
Definition invalidTypeMessage (params : RawCreateParams) (expected received : string) : string :=
  default (defaultInvalidType expected received) (invalid_type_error params).

Inductive ParseReturn (T : Type) :=
| OK (data : T)
| INVALID (issues : list ZodIssue).
Arguments OK {T} data.
Arguments INVALID {T} issues.

Definition issuesOf {T} (r : ParseReturn T) : list ZodIssue :=
  match r with OK _ => [] | INVALID issues => issues end.

(** A [min] check fails when the number is too small: [data <= value], or
    [data < value] for an inclusive bound. *)
Definition tooSmall (check : ZodNumberCheck) (data : float) : bool :=
  if inclusive check then (data <? value check)%float else (data <=? value check)%float.

Definition checkIssues (p : list string) (checks : list ZodNumberCheck) (data : float)
  : list ZodIssue :=
  omap (λ check, if tooSmall check data
                 then Some {| code := too_small; path := p; message := check_message check |}
                 else None) checks.

(** [schema._parse] at path [p]. *)
Definition _parse {T} (schema : ZodType T) (p : list string) (input : Value) : ParseReturn T :=
  match schema in ZodType T return ParseReturn T with
  | ZodString params =>
      match input with
      | Str s => OK s
      | _ => INVALID [{| code := invalid_type; path := p;
                         message := invalidTypeMessage params "string" (getParsedType input) |}]
      end
  | ZodNumber checks =>
      let data := Number input in
      if is_nan data then
        INVALID [{| code := invalid_type; path := p;
                    message := defaultInvalidType "number" "nan" |}]
      else
        match checkIssues p checks data with
        | [] => OK data
        | issues => INVALID issues
        end
  | ZodEnum values params =>
      match input with
      | Str s =>
          if existsb (String.eqb s) values then OK s
          else INVALID [{| code := invalid_enum_value; path := p;
                           message := defaultInvalidEnumValue values s |}]
      | _ => INVALID [{| code := invalid_type; path := p;
                         message := invalidTypeMessage params (joinValues values)
                                      (getParsedType input) |}]
      end
  end.

Inductive SafeParseReturn (T : Type) :=
| success (data : T)
| failure (error : ZodError).
Arguments success {T} data.
Arguments failure {T} error.

(** [error.flatten()]: the messages of the issues, by the first key of
    their path; issues with an empty path are form errors. *)
Record FlattenedError := {
  formErrors : list string;
  fieldErrors : gmap string (list string);
}.

Definition flatten (error : ZodError) : FlattenedError :=
  foldl (λ acc sub,
           match path sub with
           | key :: _ =>
               {| formErrors := formErrors acc;
                  fieldErrors := <[key := default [] (fieldErrors acc !! key) ++ [message sub]]>
                                   (fieldErrors acc) |}
           | [] =>
               {| formErrors := formErrors acc ++ [message sub];
                  fieldErrors := fieldErrors acc |}
           end)
        {| formErrors := []; fieldErrors := ∅ |} error.

End Zod.

(** ** The invoice object schemas *)

(** The shape given to [z.object] for [FormSchema]. *)
Module Shape.
Record t := {
  id : Zod.ZodType string;
  customerId : Zod.ZodType string;
  amount : Zod.ZodType float;
  status : Zod.ZodType string;
  date : Zod.ZodType string;
}.
End Shape.

(** The shape left by [.omit({ id: true, date: true })]. *)
Module Omitted.
Record t := {
  customerId : Zod.ZodType string;
  amount : Zod.ZodType float;
  status : Zod.ZodType string;
}.
End Omitted.

(** The object literal handed to [safeParse] and [parse]. *)
Module Raw.
Record t := {
  customerId : JS.Value;
  amount : JS.Value;
  status : JS.Value;
}.
End Raw.

(** The parsed data: [{ customerId: string; amount: number; status: 'pending' | 'paid' }]. *)
Module Data.
Record t := {
  customerId : string;
  amount : float;
  status : string;
}.
End Data.

Module ZodObject.
Import Zod.

Definition omit_id_date (schema : Shape.t) : Omitted.t :=
  {| Omitted.customerId := Shape.customerId schema;
     Omitted.amount := Shape.amount schema;
     Omitted.status := Shape.status schema |}.

(** [ZodObject._parse] through [safeParse]: every key of the shape is
    parsed, in the order of the shape, at the path of its name; the parse
    succeeds when no key raised an issue. *)
Definition safeParse (schema : Omitted.t) (data : Raw.t) : SafeParseReturn Data.t :=
  let customerId := _parse (Omitted.customerId schema) ["customerId"] (Raw.customerId data) in
  let amount := _parse (Omitted.amount schema) ["amount"] (Raw.amount data) in
  let status := _parse (Omitted.status schema) ["status"] (Raw.status data) in
  match customerId, amount, status with
  | OK c, OK a, OK s =>
      success {| Data.customerId := c; Data.amount := a; Data.status := s |}
  | _, _, _ => failure (issuesOf customerId ++ issuesOf amount ++ issuesOf status)
  end.

End ZodObject.

(** ** Effects: the store, the log, the cache and navigation *)
Module Runtime.

(** The statements the actions send, with their bound parameters. *)
Inductive Statement :=
| INSERT_INTO_invoices (customer_id : string) (amount : float) (status date : string)
| UPDATE_invoices (customer_id : string) (amount : float) (status : string) (id : string)
| DELETE_FROM_invoices (id : string).

(** What a call can throw: a [ZodError] from [parse], an [Error] made by
    the action, the error the database client rejected a statement with,
    and the [NEXT_REDIRECT] error by which [redirect] leaves the action. *)
Inductive Exn :=
| ZodError (issues : Zod.ZodError)
| Error (message : string)
| PostgresError (detail : string)
| NEXT_REDIRECT (url : string).

(** What a call does to the outside, in order. *)
Inductive Effect :=
| Sql (statement : Statement)
| ConsoleError (label : string) (error : Exn)
| RevalidatePath (path : string)
| Redirect (url : string).

(** What the outside answers: for every statement whether the client
    resolves ([None]) or rejects with an error, and the time [new Date()]
    reads. *)
Record World := {
  database : Statement → option string;
  clock : Z;
}.

Inductive Completion (A : Type) :=
| Return (value : A)
| Throw (error : Exn).
Arguments Return {A} value.
Arguments Throw {A} error.

(** An async function: given the world, the effects it performs and how
    it completes. *)
Definition Async (A : Type) : Type := World → list Effect * Completion A.

#[global] Instance Async_ret : MRet Async := λ A a _, ([], Return a).

#[global] Instance Async_bind : MBind Async := λ A B k m w,
  match m w with
  | (t, Return a) => let '(t', r) := k a w in (t ++ t', r)
  | (t, Throw e) => (t, Throw e)
  end.

#[global] Instance Async_throw : MThrow Exn Async := λ A e _, ([], Throw e).

(** [try { body } catch (error) { handler }] *)
Definition try_catch {A} (body : Async A) (handler : Exn → Async A) : Async A := λ w,
  match body w with
  | (t, Return a) => (t, Return a)
  | (t, Throw e) => let '(t', r) := handler e w in (t ++ t', r)
  end.

(** [await sql`...`] *)
Definition sql (statement : Statement) : Async () := λ w,
  ([Sql statement],
   match database w statement with
   | None => Return ()
   | Some detail => Throw (PostgresError detail)
   end).

Definition console_error (label : string) (error : Exn) : Async () := λ _,
  ([ConsoleError label error], Return ()).

Definition revalidatePath (path : string) : Async () := λ _,
  ([RevalidatePath path], Return ()).

(** [redirect] never returns: it throws [NEXT_REDIRECT]. *)
Definition redirect {A} (url : string) : Async A := λ _,
  ([Redirect url], Throw (NEXT_REDIRECT url)).

(** [new Date()] *)
Definition new_Date : Async Z := λ w, ([], Return (clock w)).

(** [schema.parse(data)]: the data of [safeParse], or its error thrown. *)
Definition parse (schema : Omitted.t) (data : Raw.t) : Async Data.t :=
  match ZodObject.safeParse schema data with
  | Zod.success d => mret d
  | Zod.failure error => mthrow (ZodError error)
  end.

(** The statements among the effects of a call. *)
Definition statements (trace : list Effect) : list Statement :=
  omap (λ e, match e with Sql q => Some q | _ => None end) trace.

End Runtime.

(** ** app/lib/actions.ts, the version with form state *)
Module Validated.
Import JS Zod Runtime.

Definition FormSchema : Shape.t := {|
  Shape.id := string_ noParams;
  Shape.customerId := string_ {| invalid_type_error := Some "Please select a customer." |};
  Shape.amount := gt coerce_number 0 "Please enter an amount greater than $0.";
  Shape.status := enum ["pending"; "paid"]
                    {| invalid_type_error := Some "Please select an invoice status." |};
  Shape.date := string_ noParams;
|}.

Record State := {
  errors : option (gmap string (list string));
  message : option string;
}.

Definition CreateInvoice : Omitted.t := ZodObject.omit_id_date FormSchema.

Definition createInvoice (prevState : State) (formData : FormData) : Async State :=
  let validatedFields := ZodObject.safeParse CreateInvoice {|
    Raw.customerId := get formData "customerId";
    Raw.amount := get formData "amount";
    Raw.status := get formData "status";
  |} in
  match validatedFields with
  | failure error =>
      mret {| errors := Some (fieldErrors (flatten error));
              message := Some "Missing Fields. Failed to Create Invoice." |}
  | success data =>
      let customerId := Data.customerId data in
      let amount := Data.amount data in
      let status := Data.status data in
      let amountInCents := (amount * 100)%float in
      now ← new_Date;
      let date := split_0 "T" (toISOString now) in
      caught ← try_catch
        (sql (INSERT_INTO_invoices customerId amountInCents status date);; mret None)
        (λ error, mret (Some {| errors := None;
                                message := Some "Database Error: Failed to Create Invoice." |}));
      match caught with
      | Some state => mret state
      | None =>
          revalidatePath "/dashboard/invoices";;
          redirect "/dashboard/invoices"
      end
  end.

Definition UpdateInvoice : Omitted.t := ZodObject.omit_id_date FormSchema.

Definition updateInvoice (id : string) (formData : FormData) : Async () :=
  let rawFormData := {|
    Raw.customerId := get formData "customerId";
    Raw.amount := get formData "amount";
    Raw.status := get formData "status";
  |} in
  data ← parse UpdateInvoice rawFormData;
  let customerId := Data.customerId data in
  let amount := Data.amount data in
  let status := Data.status data in
  let amountInCents := (amount * 100)%float in
  try_catch
    (sql (UPDATE_invoices customerId amountInCents status id))
    (λ error,
       console_error "Error updating invoice:" error;;
       mthrow (Error "Failed to update invoice"));;
  revalidatePath "/dashboard/invoices";;
  redirect "/dashboard/invoices".

Definition deleteInvoice (id : string) : Async () :=
  sql (DELETE_FROM_invoices id);;
  revalidatePath "/dashboard/invoices".

End Validated.

(** ** app/lib/actions.ts, the version that raises *)
Module Basic.
Import JS Zod Runtime.

Definition FormSchema : Shape.t := {|
  Shape.id := string_ noParams;
  Shape.customerId := string_ noParams;
  Shape.amount := coerce_number;
  Shape.status := enum ["pending"; "paid"] noParams;
  Shape.date := string_ noParams;
|}.

Definition CreateInvoice : Omitted.t := ZodObject.omit_id_date FormSchema.

Definition createInvoice (formData : FormData) : Async () :=
  let rawFormData := {|
    Raw.customerId := get formData "customerId";
    Raw.amount := get formData "amount";
    Raw.status := get formData "status";
  |} in
  data ← parse CreateInvoice rawFormData;
  let customerId := Data.customerId data in
  let amount := Data.amount data in
  let status := Data.status data in
  let amountInCents := (amount * 100)%float in
  now ← new_Date;
  let date := split_0 "T" (toISOString now) in
  try_catch
    (sql (INSERT_INTO_invoices customerId amountInCents status date))
    (λ error,
       console_error "Error inserting invoice:" error;;
       mthrow (Error "Failed to create invoice"));;
  revalidatePath "/dashboard/invoices";;
  redirect "/dashboard/invoices".

Definition UpdateInvoice : Omitted.t := ZodObject.omit_id_date FormSchema.

Definition updateInvoice (id : string) (formData : FormData) : Async () :=
  let rawFormData := {|
    Raw.customerId := get formData "customerId";
    Raw.amount := get formData "amount";
    Raw.status := get formData "status";
  |} in
  data ← parse UpdateInvoice rawFormData;
  let customerId := Data.customerId data in
  let amount := Data.amount data in
  let status := Data.status data in
  let amountInCents := (amount * 100)%float in
  try_catch
    (sql (UPDATE_invoices customerId amountInCents status id))
    (λ error,
       console_error "Error updating invoice:" error;;
       mthrow (Error "Failed to update invoice"));;
  revalidatePath "/dashboard/invoices";;
  redirect "/dashboard/invoices".

Definition deleteInvoice (id : string) : Async () :=
  sql (DELETE_FROM_invoices id);;
  revalidatePath "/dashboard/invoices".

End Basic.

(** ** Vocabulary of the properties *)

Import JS Zod Runtime.

Definition customerMessage : string := "Please select a customer.".
Definition amountMessage : string := "Please enter an amount greater than $0.".
Definition statusMessage : string := "Please select an invoice status.".
Definition missingFields : string := "Missing Fields. Failed to Create Invoice.".
Definition databaseError : string := "Database Error: Failed to Create Invoice.".
Definition listing : string := "/dashboard/invoices".

(** The object literal both versions build from the form. *)
Definition rawOf (formData : FormData) : Raw.t := {|
  Raw.customerId := get formData "customerId";
  Raw.amount := get formData "amount";
  Raw.status := get formData "status";
|}.

Definition isString (v : Value) : Prop := ∃ s, v = Str s.

(** Membership in [['pending', 'paid']], as [ZodEnum] tests it. *)
Definition inEnum (s : string) : bool := existsb (String.eqb s) ["pending"; "paid"].

(** The messages of the issues raised under the key [key]. *)
Definition messagesAt (key : string) (error : list ZodIssue) : list string :=
  message <$> filter (λ sub, head (path sub) = Some key) error.

(** The calendar as ECMAScript defines it: the day number on which a
    year starts, whether a year is a leap year, and the day within the
    year on which month [m] (1 to 12; 13 for the end of the year) starts. *)
Definition DayFromYear (y : Z) : Z :=
  365 * (y - 1970) + (y - 1969) / 4 - (y - 1901) / 100 + (y - 1601) / 400.

Definition InLeapYear (y : Z) : Z :=
  if (y mod 4 =? 0) && (negb (y mod 100 =? 0) || (y mod 400 =? 0)) then 1 else 0.

Definition monthStart (leap m : Z) : Z :=
  match m with
  | 1 => 0 | 2 => 31 | 3 => 59 + leap | 4 => 90 + leap | 5 => 120 + leap
  | 6 => 151 + leap | 7 => 181 + leap | 8 => 212 + leap | 9 => 243 + leap
  | 10 => 273 + leap | 11 => 304 + leap | 12 => 334 + leap | _ => 365 + leap
  end.

(** The UTC calendar date of a time value, written [YYYY-MM-DD]. *)
Definition currentDate (t : Z) : string :=
  padDigits 4 (YearFromTime t) (String "-"
    (padDigits 2 (MonthFromTime t + 1) (String "-"
    (padDigits 2 (DateFromTime t) EmptyString)))).

Definition isDigit (c : ascii) : bool := (48 <=? JS.code c) && (JS.code c <=? 57).

(** Four digits, a dash, two digits, a dash, two digits. *)
Definition is_YYYY_MM_DD (s : string) : bool :=
  match s with
  | String y1 (String y2 (String y3 (String y4 (String "-"
      (String m1 (String m2 (String "-" (String d1 (String d2 EmptyString))))))))) =>
      forallb isDigit [y1; y2; y3; y4; m1; m2; d1; d2]
  | _ => false
  end.

(** The time values whose UTC year has four digits:
    0000-01-01T00:00:00.000Z to 9999-12-31T23:59:59.999Z. *)
Definition fourDigitYear (t : Z) : Prop := -62167219200000 ≤ t ≤ 253402300799999.

(** Two completions agree when they are equal, or when both throw a
    [ZodError] with the same issues up to the wording of their messages. *)
Definition sameCompletion {A} (r1 r2 : Completion A) : Prop :=
  match r1, r2 with
  | Throw (ZodError e1), Throw (ZodError e2) =>
      (λ sub, (code sub, path sub)) <$> e1 = (λ sub, (code sub, path sub)) <$> e2
  | _, _ => r1 = r2
  end.

(** The message of zod's default error map for a string outside the enumeration. *)
Definition invalidEnumMessage (s : string) : string :=
  "Invalid enum value. Expected 'pending' | 'paid', received '" +:+ s +:+ "'".

(** What [updateInvoice] does once it has the data. *)
Definition updateWith (id : string) (d : Data.t) (w : World) : list Effect * Completion () :=
  let update := UPDATE_invoices (Data.customerId d) (Data.amount d * 100)%float
                  (Data.status d) id in
  match database w update with
  | None => ([Sql update; RevalidatePath listing; Redirect listing],
             Throw (NEXT_REDIRECT listing))
  | Some detail =>
      ([Sql update; ConsoleError "Error updating invoice:" (PostgresError detail)],
       Throw (Error "Failed to update invoice"))
  end.

(** The sample inputs of the examples below. *)
Definition noState : Validated.State :=
  {| Validated.errors := None; Validated.message := None |}.
Definition storeUp : World := {| database := λ _, None; clock := 1750334400123 |}.
Definition storeDown : World :=
  {| database := λ _, Some "connection refused"; clock := 1750334400123 |}.

(** The effects of the six actions on one form, identifier and world. *)
Definition traces (prevState : Validated.State) (id : string) (formData : FormData)
    (w : World) : list (list Effect) :=
  [ (Validated.createInvoice prevState formData w).1;
    (Validated.updateInvoice id formData w).1;
    (Validated.deleteInvoice id w).1;
    (Basic.createInvoice formData w).1;
    (Basic.updateInvoice id formData w).1;
    (Basic.deleteInvoice id w).1 ].

(** The ways a call can go: no effect; a statement the store accepts,
    then the revalidation and perhaps the redirect; a statement the store
    rejects, then perhaps the log of the store's error. *)
Definition effectsShape (w : World) (trace : list Effect) : Prop :=
  trace = []
  ∨ (∃ q, database w q = None ∧
       (trace = [Sql q; RevalidatePath listing; Redirect listing]
        ∨ trace = [Sql q; RevalidatePath listing]))
  ∨ (∃ q detail, database w q = Some detail ∧
       (trace = [Sql q]
        ∨ ∃ label, trace = [Sql q; ConsoleError label (PostgresError detail)])).

(** A string of white space only (the empty string included). *)
Fixpoint allWhiteSpace (s : string) : bool :=
  match s with
  | EmptyString => true
  | String c s' => isStrWhiteSpaceChar c && allWhiteSpace s'
  end.

(** * Properties *)

(** ** The built-ins on sample values *)

(** [Number] reads decimal literals to the nearest double, trims white
    space, reads the empty string and [null] as [+0], and gives NaN for
    anything that is not a numeric literal. *)
Example Number_samples :
  Number (Str "19.99") = (1999 / 100)%float ∧
  Number (Str "0.1") = (1 / 10)%float ∧
  Number (Str " 12e3 ") = 12000%float ∧
  Number (Str "-3") = (-3)%float ∧
  Number (Str ".5") = (1 / 2)%float ∧
  Number (Str "0x1F") = 31%float ∧
  Number (Str "9007199254740993") = 9007199254740992%float ∧
  Number (Str "1e400") = infinity ∧
  Number (Str "-Infinity") = neg_infinity ∧
  Number (Str "") = 0%float ∧
  Number (Str "   ") = 0%float ∧
  Number Null = 0%float ∧
  Number (Str "-0") = (-0)%float.
Proof. repeat split; vm_compute; reflexivity. Qed.

Example Number_not_numeric :
  is_nan (Number (Str "abc")) = true ∧
  is_nan (Number (Str "12px")) = true ∧
  is_nan (Number (Str "1e")) = true ∧
  is_nan (Number (Str ".")) = true ∧
  is_nan (Number (Str "1 2")) = true ∧
  is_nan (Number (Str "+0x10")) = true ∧
  is_nan (Number (Str "infinity")) = true ∧
  is_nan (Number (File "invoice.pdf")) = true.
Proof. repeat split; vm_compute; reflexivity. Qed.

Example toISOString_samples :
  toISOString 0 = "1970-01-01T00:00:00.000Z" ∧
  toISOString (-1) = "1969-12-31T23:59:59.999Z" ∧
  toISOString 951782400000 = "2000-02-29T00:00:00.000Z" ∧
  toISOString 1750334400123 = "2025-06-19T12:00:00.123Z" ∧
  split_0 "T" (toISOString 1750334400123) = "2025-06-19".
Proof. repeat split; vm_compute; reflexivity. Qed.

(** Outside the years 0000 to 9999 the ISO string carries a sign and six
    digits for the year, and so does the part before [T]. *)
Example toISOString_expanded_years :
  split_0 "T" (toISOString 253402300800000) = "+010000-01-01" ∧
  split_0 "T" (toISOString (-62167219200001)) = "-000001-12-31".
Proof. split; vm_compute; reflexivity. Qed.

(** ** Numbers: comparing with zero *)
Section Numbers.

Lemma Prim2SF_zero : Prim2SF 0 = S754_zero false.
Proof. reflexivity. Qed.

(** A number that is greater than zero is not NaN and not too small for
    the bound [gt(0)]. *)
Lemma gt_zero_passes (x : float) :
  (0 <? x)%float = true → is_nan x = false ∧ (x <=? 0)%float = false.
Proof.
  unfold is_nan. rewrite FloatAxioms.ltb_spec, FloatAxioms.leb_spec, FloatAxioms.eqb_spec, Prim2SF_zero.
  destruct (Prim2SF x) as [[]|[]| |[] m e]; cbn; intros H; try discriminate H.
  - split; reflexivity.
  - split; [|reflexivity].
    unfold SFeqb, SFcompare. rewrite Z.compare_refl, Pos.compare_cont_refl. reflexivity.
Qed.

(** A number that is not greater than zero is too small for [gt(0)]. *)
Lemma not_gt_zero_too_small (x : float) :
  is_nan x = false → (0 <? x)%float = false → (x <=? 0)%float = true.
Proof.
  unfold is_nan. rewrite FloatAxioms.ltb_spec, FloatAxioms.leb_spec, FloatAxioms.eqb_spec, Prim2SF_zero.
  destruct (Prim2SF x) as [[]|[]| |[] m e]; cbn; intros H1 H2;
    first [reflexivity | discriminate].
Qed.

Lemma nan_not_compared (x : float) :
  is_nan x = true → (0 <? x)%float = false ∧ (x <=? 0)%float = false.
Proof.
  unfold is_nan. rewrite FloatAxioms.ltb_spec, FloatAxioms.leb_spec, FloatAxioms.eqb_spec, Prim2SF_zero.
  destruct (Prim2SF x) as [[]|[]| |[] m e]; cbn; intros H;
    first [split; reflexivity | discriminate H | idtac].
  all: exfalso; revert H; unfold SFeqb, SFcompare;
    rewrite Z.compare_refl, Pos.compare_cont_refl; discriminate.
Qed.

Lemma not_gt_zero_too_small_contra (x : float) :
  is_nan x = false → (x <=? 0)%float = false → (0 <? x)%float = true.
Proof.
  intros Hnan Hle. destruct (0 <? x)%float eqn:Hgt; [done|].
  rewrite (not_gt_zero_too_small x Hnan Hgt) in Hle. discriminate.
Qed.

End Numbers.

(** ** Validation: what each field schema does *)

#[local] Arguments Number : simpl never.
#[local] Arguments is_nan : simpl never.
#[local] Arguments String.eqb : simpl never.

Lemma parse_customerId (params : RawCreateParams) (v : Value) :
  _parse (string_ params) ["customerId"] v =
    match v with
    | Str s => OK s
    | _ => INVALID [{| code := invalid_type; path := ["customerId"];
                       message := invalidTypeMessage params "string" (getParsedType v) |}]
    end.
Proof. reflexivity. Qed.

Lemma parse_amount_strict (v : Value) :
  _parse (Shape.amount Validated.FormSchema) ["amount"] v =
    if is_nan (Number v) then
      INVALID [{| code := invalid_type; path := ["amount"];
                  message := "Expected number, received nan" |}]
    else if (Number v <=? 0)%float then
      INVALID [{| code := too_small; path := ["amount"]; message := amountMessage |}]
    else OK (Number v).
Proof.
  simpl. destruct (is_nan (Number v)); [reflexivity|].
  unfold tooSmall; simpl. destruct (Number v <=? 0)%float; reflexivity.
Qed.

Lemma parse_amount_basic (v : Value) :
  _parse (Shape.amount Basic.FormSchema) ["amount"] v =
    if is_nan (Number v) then
      INVALID [{| code := invalid_type; path := ["amount"];
                  message := "Expected number, received nan" |}]
    else OK (Number v).
Proof. simpl. destruct (is_nan (Number v)); reflexivity. Qed.

Lemma inEnum_spec (s : string) : inEnum s = true ↔ s = "pending" ∨ s = "paid".
Proof.
  unfold inEnum; simpl. rewrite !orb_true_iff, !String.eqb_eq. intuition discriminate.
Qed.

Lemma parse_status (params : RawCreateParams) (v : Value) :
  _parse (enum ["pending"; "paid"] params) ["status"] v =
    match v with
    | Str s =>
        if inEnum s then OK s
        else INVALID [{| code := invalid_enum_value; path := ["status"];
                         message := "Invalid enum value. Expected 'pending' | 'paid', received '"
                                    +:+ s +:+ "'" |}]
    | _ => INVALID [{| code := invalid_type; path := ["status"];
                       message := invalidTypeMessage params "'pending' | 'paid'"
                                    (getParsedType v) |}]
    end.
Proof. destruct v; reflexivity. Qed.

(** The two schemas of each version are the same object. *)
Lemma UpdateInvoice_strict : Validated.UpdateInvoice = Validated.CreateInvoice.
Proof. reflexivity. Qed.

Lemma UpdateInvoice_basic : Basic.UpdateInvoice = Basic.CreateInvoice.
Proof. reflexivity. Qed.

Ltac field_cases raw :=
  destruct raw as [c a s]; unfold ZodObject.safeParse;
  cbn [Omitted.customerId Omitted.amount Omitted.status Raw.customerId Raw.amount Raw.status
       Validated.CreateInvoice Basic.CreateInvoice ZodObject.omit_id_date];
  change (Shape.customerId Validated.FormSchema)
    with (string_ {| invalid_type_error := Some customerMessage |});
  change (Shape.status Validated.FormSchema)
    with (enum ["pending"; "paid"] {| invalid_type_error := Some statusMessage |});
  change (Shape.customerId Basic.FormSchema) with (string_ noParams);
  change (Shape.status Basic.FormSchema) with (enum ["pending"; "paid"] noParams);
  rewrite ?parse_customerId, ?parse_status, ?parse_amount_strict, ?parse_amount_basic.

(** The strict schema accepts exactly the objects with a string
    [customerId], an [amount] that coerces to a number above zero and a
    [status] in the enumeration; the data are those values. *)
Lemma strict_success_iff (raw : Raw.t) (d : Data.t) :
  ZodObject.safeParse Validated.CreateInvoice raw = success d ↔
    Raw.customerId raw = Str (Data.customerId d) ∧
    Number (Raw.amount raw) = Data.amount d ∧
    (0 <? Data.amount d)%float = true ∧
    Raw.status raw = Str (Data.status d) ∧
    inEnum (Data.status d) = true.
Proof.
  destruct d as [dc da ds]. field_cases raw. cbn [Data.customerId Data.amount Data.status].
  split.
  - destruct c as [|c|]; destruct (is_nan (Number a)) eqn:Hnan;
      destruct (Number a <=? 0)%float eqn:Hle;
      destruct s as [|s|]; try destruct (inEnum s) eqn:Hin; try discriminate.
    intros [= <- <- <-]. repeat split; try done.
    by apply not_gt_zero_too_small_contra.
  - intros (-> & <- & Hgt & -> & Hin).
    destruct (gt_zero_passes _ Hgt) as [-> ->]. by rewrite Hin.
Qed.

(** The basic schema only asks the amount to coerce to a number. *)
Lemma basic_success_iff (raw : Raw.t) (d : Data.t) :
  ZodObject.safeParse Basic.CreateInvoice raw = success d ↔
    Raw.customerId raw = Str (Data.customerId d) ∧
    Number (Raw.amount raw) = Data.amount d ∧
    is_nan (Data.amount d) = false ∧
    Raw.status raw = Str (Data.status d) ∧
    inEnum (Data.status d) = true.
Proof.
  destruct d as [dc da ds]. field_cases raw. cbn [Data.customerId Data.amount Data.status].
  split.
  - destruct c as [|c|]; destruct (is_nan (Number a)) eqn:Hnan;
      destruct s as [|s|]; try destruct (inEnum s) eqn:Hin; try discriminate.
    intros [= <- <- <-]. done.
  - intros (-> & <- & -> & -> & ->). done.
Qed.

(** ** The issues of a failed parse and their flattening *)

Lemma parse_issue_path {T} (schema : ZodType T) (p : list string) (v : Value) (sub : ZodIssue) :
  sub ∈ issuesOf (_parse schema p v) → path sub = p.
Proof.
  destruct schema as [params|checks|values params]; simpl.
  - destruct v; simpl; intros H; try by inversion H.
    all: apply list_elem_of_singleton in H as ->; done.
  - destruct (is_nan (Number v)).
    + intros H. apply list_elem_of_singleton in H as ->. done.
    + assert (Hchk : ∀ i, i ∈ checkIssues p checks (Number v) → path i = p).
      { intros i Hi. unfold checkIssues in Hi. apply list_elem_of_omap in Hi as (chk & _ & Hi).
        destruct (tooSmall chk (Number v)); [|done]. by injection Hi as <-. }
      destruct (checkIssues p checks (Number v)) as [|i0 l] eqn:E; simpl; [by inversion 1|].
      apply Hchk.
  - destruct v as [|s|]; simpl.
    2: destruct (existsb (String.eqb s) values); simpl; [by inversion 1|].
    all: intros H; apply list_elem_of_singleton in H as ->; done.
Qed.

Lemma messagesAt_app (key : string) (e1 e2 : list ZodIssue) :
  messagesAt key (e1 ++ e2) = messagesAt key e1 ++ messagesAt key e2.
Proof. unfold messagesAt. by rewrite filter_app, fmap_app. Qed.

Lemma messagesAt_parse {T} (schema : ZodType T) (key key' : string) (v : Value) :
  messagesAt key (issuesOf (_parse schema [key'] v)) =
    if decide (key' = key) then message <$> issuesOf (_parse schema [key'] v) else [].
Proof.
  unfold messagesAt.
  pose proof (parse_issue_path schema [key'] v) as Hp.
  induction (issuesOf (_parse schema [key'] v)) as [|i l IH].
  - by destruct (decide _).
  - rewrite filter_cons, (Hp i) by left. simpl.
    assert (IH' := IH (λ sub Hsub, Hp sub (list_elem_of_further _ _ _ Hsub))).
    destruct (decide (key' = key)) as [->|Hne].
    + rewrite decide_True by done. simpl. f_equal. exact IH'.
    + rewrite decide_False by congruence. done.
Qed.

(** [flatten] keys the messages by field, in the order of the issues. *)
Lemma flatten_fieldErrors (error : list ZodIssue) (key : string) :
  fieldErrors (flatten error) !! key =
    match messagesAt key error with
    | [] => None
    | msgs => Some msgs
    end.
Proof.
  unfold flatten.
  enough (G : ∀ acc,
    fieldErrors (foldl (λ acc sub,
           match path sub with
           | key :: _ =>
               {| formErrors := formErrors acc;
                  fieldErrors := <[key := default [] (fieldErrors acc !! key) ++ [message sub]]>
                                   (fieldErrors acc) |}
           | [] =>
               {| formErrors := formErrors acc ++ [message sub];
                  fieldErrors := fieldErrors acc |}
           end) acc error) !! key =
    match messagesAt key error with
    | [] => fieldErrors acc !! key
    | msgs => Some (default [] (fieldErrors acc !! key) ++ msgs)
    end).
  { rewrite G. simpl. rewrite lookup_empty. done. }
  induction error as [|sub error IH]; intros acc; [done|].
  simpl. rewrite IH. unfold messagesAt. rewrite filter_cons.
  destruct (decide (head (path sub) = Some key)) as [Hk|Hk].
  - destruct (path sub) as [|k p]; [done|]. injection Hk as ->.
    simpl. rewrite lookup_insert_eq. simpl.
    change (list_fmap ZodIssue string message) with (fmap (M:=list) message).
    destruct (message <$> filter _ error); simpl; [done|].
    by rewrite <- app_assoc.
  - destruct (path sub) as [|k p]; simpl; [done|].
    rewrite lookup_insert_ne; [done|]. intros ->. by apply Hk.
Qed.

Lemma safeParse_failure (schema : Omitted.t) (raw : Raw.t) (error : list ZodIssue) :
  ZodObject.safeParse schema raw = failure error →
  error = issuesOf (_parse (Omitted.customerId schema) ["customerId"] (Raw.customerId raw))
       ++ issuesOf (_parse (Omitted.amount schema) ["amount"] (Raw.amount raw))
       ++ issuesOf (_parse (Omitted.status schema) ["status"] (Raw.status raw)).
Proof.
  unfold ZodObject.safeParse.
  destruct (_parse (Omitted.customerId schema) _ _), (_parse (Omitted.amount schema) _ _),
    (_parse (Omitted.status schema) _ _); by intros [= <-].
Qed.

(** ** Dates *)

(** [civilFromDays] computes the year, month and day that ECMAScript
    defines: the day lies in the year found, within the month found, and
    the day of the month counts from the start of that month. *)
Lemma civilFromDays_correct (z : Z) :
  let '(y, m, d) := civilFromDays z in
  1 ≤ m ≤ 12 ∧
  DayFromYear y + monthStart (InLeapYear y) m ≤ z
    < DayFromYear y + monthStart (InLeapYear y) (m + 1) ∧
  d = z - (DayFromYear y + monthStart (InLeapYear y) m) + 1.
Proof.
  unfold civilFromDays. cbv zeta.
  set (z' := z + 719468).
  set (era := z' / 146097). set (doe := z' mod 146097).
  assert (Hdoe : 0 ≤ doe < 146097) by (apply Z.mod_pos_bound; lia).
  assert (Hz : z = era * 146097 + doe - 719468).
  { unfold era, doe, z'. pose proof (Z.div_mod (z + 719468) 146097). lia. }
  clearbody era doe. clear z'. subst z.
  set (yoe := (doe - doe / 1460 + doe / 36524 - doe / 146096) / 365).
  assert (Hyoe : 0 ≤ yoe ≤ 399 ∧ 0 ≤ doe - (365 * yoe + yoe / 4 - yoe / 100) ≤ 365
      ∧ (doe - (365 * yoe + yoe / 4 - yoe / 100) = 365 →
         yoe mod 4 = 3 ∧ (yoe mod 100 ≠ 99 ∨ yoe = 399))).
  { unfold yoe. Z.div_mod_to_equations. lia. }
  clearbody yoe.
  set (doy := doe - (365 * yoe + yoe / 4 - yoe / 100)) in *.
  assert (Hdoe' : doe = doy + (365 * yoe + yoe / 4 - yoe / 100)) by (unfold doy; lia).
  clearbody doy. subst doe.
  set (mp := (5 * doy + 2) / 153).
  assert (Hmp : 0 ≤ mp ≤ 11) by (unfold mp; Z.div_mod_to_equations; lia).
  assert (Hc : mp = 0 ∨ mp = 1 ∨ mp = 2 ∨ mp = 3 ∨ mp = 4 ∨ mp = 5 ∨ mp = 6 ∨ mp = 7
               ∨ mp = 8 ∨ mp = 9 ∨ mp = 10 ∨ mp = 11) by lia.
  unfold DayFromYear, InLeapYear.
  destruct Hc as [E|[E|[E|[E|[E|[E|[E|[E|[E|[E|[E|E]]]]]]]]]]]; rewrite E;
    simpl Z.ltb; cbv iota; simpl Z.leb; cbv iota; simpl monthStart; unfold mp in E;
    repeat match goal with |- context [if ?b then _ else _] => destruct b eqn:? end;
    rewrite ?andb_true_iff, ?andb_false_iff, ?orb_true_iff, ?orb_false_iff,
      ?negb_true_iff, ?negb_false_iff, ?Z.eqb_eq, ?Z.eqb_neq in *;
    (split; [lia|]); Z.div_mod_to_equations; lia.
Qed.

Lemma DayFromYear_succ (y : Z) : DayFromYear (y + 1) = DayFromYear y + 365 + InLeapYear y.
Proof.
  unfold DayFromYear, InLeapYear.
  destruct (_ && _) eqn:E;
    rewrite ?andb_true_iff, ?andb_false_iff, ?orb_true_iff, ?orb_false_iff,
      ?negb_true_iff, ?negb_false_iff, ?Z.eqb_eq, ?Z.eqb_neq in E;
    Z.div_mod_to_equations; lia.
Qed.

Lemma year_range (y z r : Z) :
  DayFromYear y ≤ z < DayFromYear (y + 1) → 0 ≤ r < 86400000 →
  -62167219200000 ≤ 86400000 * z + r ≤ 253402300799999 → 0 ≤ y ≤ 9999.
Proof.
  intros Hz Hr Ht. unfold DayFromYear in Hz. Z.div_mod_to_equations. lia.
Qed.

Lemma monthStart_bounds (leap m : Z) :
  0 ≤ leap ≤ 1 → 1 ≤ m ≤ 12 →
  0 ≤ monthStart leap m ∧ monthStart leap (m + 1) ≤ 365 + leap ∧
  monthStart leap (m + 1) - monthStart leap m ≤ 31.
Proof.
  intros Hl Hm.
  assert (Hc : m = 1 ∨ m = 2 ∨ m = 3 ∨ m = 4 ∨ m = 5 ∨ m = 6 ∨ m = 7 ∨ m = 8 ∨ m = 9
               ∨ m = 10 ∨ m = 11 ∨ m = 12) by lia.
  destruct Hc as [E|[E|[E|[E|[E|[E|[E|[E|[E|[E|[E|E]]]]]]]]]]]; rewrite E; simpl; lia.
Qed.

(** Month and day are in range for every time value, and the year has
    four digits from 0000-01-01 to 9999-12-31. *)
Lemma date_fields_bounds (t : Z) :
  1 ≤ MonthFromTime t + 1 ≤ 12 ∧ 1 ≤ DateFromTime t ≤ 31 ∧
  (fourDigitYear t → 0 ≤ YearFromTime t ≤ 9999).
Proof.
  unfold MonthFromTime, DateFromTime, YearFromTime, fourDigitYear.
  pose proof (civilFromDays_correct (Day t)) as H.
  assert (HD : t = msPerDay * Day t + TimeWithinDay t ∧ 0 ≤ TimeWithinDay t < msPerDay).
  { unfold Day, TimeWithinDay, msPerDay. split; [apply Z.div_mod; lia|].
    apply Z.mod_pos_bound; lia. }
  unfold msPerDay in HD. revert H HD. generalize (Day t) (TimeWithinDay t). intros z r.
  destruct (civilFromDays z) as [[y m] d]. simpl. intros (Hm & Hz & ->) [-> Hr].
  assert (Hleap : 0 ≤ InLeapYear y ≤ 1) by (unfold InLeapYear; destruct (_ && _); lia).
  pose proof (monthStart_bounds _ _ Hleap Hm) as (Hs0 & Hs1 & Hs2).
  split; [lia|]. split; [lia|].
  intros Ht. apply (year_range y z r); [|done|done].
  rewrite DayFromYear_succ. lia.
Qed.

(** A decimal digit is written as a digit, never as the separator [T]. *)
Lemma digitChar_mod10 (n : Z) :
  isDigit (digitChar (n mod 10)) = true ∧ Ascii.eqb (digitChar (n mod 10)) "T" = false.
Proof.
  assert (H : 0 ≤ n mod 10 < 10) by (apply Z.mod_pos_bound; lia).
  assert (Hc : n mod 10 = 0 ∨ n mod 10 = 1 ∨ n mod 10 = 2 ∨ n mod 10 = 3 ∨ n mod 10 = 4
               ∨ n mod 10 = 5 ∨ n mod 10 = 6 ∨ n mod 10 = 7 ∨ n mod 10 = 8 ∨ n mod 10 = 9)
    by lia.
  destruct Hc as [E|[E|[E|[E|[E|[E|[E|[E|[E|E]]]]]]]]]; rewrite E; split; reflexivity.
Qed.

Lemma split_0_padDigits (width : nat) (n : Z) (acc : string) :
  split_0 "T" (padDigits width n acc) = padDigits width n (split_0 "T" acc).
Proof.
  revert n acc. induction width as [|w IH]; intros n acc; [done|].
  simpl. rewrite IH. simpl. by rewrite (proj2 (digitChar_mod10 n)).
Qed.

(** Cutting the ISO string at [T] leaves the calendar date. *)
Lemma toISOString_date (t : Z) :
  fourDigitYear t → split_0 "T" (toISOString t) = currentDate t.
Proof.
  intros Ht. destruct (date_fields_bounds t) as (_ & _ & Hy). specialize (Hy Ht).
  unfold toISOString, isoYear, currentDate.
  replace ((0 <=? YearFromTime t) && (YearFromTime t <=? 9999)) with true
    by (symmetry; apply andb_true_iff; split; apply Z.leb_le; lia).
  rewrite split_0_padDigits. cbn [split_0 Ascii.eqb Bool.eqb].
  rewrite split_0_padDigits. cbn [split_0 Ascii.eqb Bool.eqb].
  rewrite split_0_padDigits. cbn [split_0 Ascii.eqb Bool.eqb].
  reflexivity.
Qed.

Lemma currentDate_form (t : Z) : is_YYYY_MM_DD (currentDate t) = true.
Proof.
  unfold currentDate. cbn [padDigits is_YYYY_MM_DD forallb].
  by rewrite !(proj1 (digitChar_mod10 _)).
Qed.

(** ** What a failed strict parse reports *)

Lemma messagesAt_failure (schema : Omitted.t) (raw : Raw.t) (error : list ZodIssue) :
  ZodObject.safeParse schema raw = failure error →
  messagesAt "customerId" error =
    message <$> issuesOf (_parse (Omitted.customerId schema) ["customerId"] (Raw.customerId raw)) ∧
  messagesAt "amount" error =
    message <$> issuesOf (_parse (Omitted.amount schema) ["amount"] (Raw.amount raw)) ∧
  messagesAt "status" error =
    message <$> issuesOf (_parse (Omitted.status schema) ["status"] (Raw.status raw)).
Proof.
  intros ->%safeParse_failure. rewrite !messagesAt_app, !messagesAt_parse.
  repeat split; repeat case_decide; try done; by rewrite ?app_nil_r.
Qed.

(** The field errors [createInvoice] returns, field by field. *)
Lemma strict_fieldErrors (raw : Raw.t) (error : list ZodIssue) :
  ZodObject.safeParse Validated.CreateInvoice raw = failure error →
  fieldErrors (flatten error) !! "customerId" =
    match Raw.customerId raw with Str _ => None | _ => Some [customerMessage] end ∧
  fieldErrors (flatten error) !! "amount" =
    (if is_nan (Number (Raw.amount raw)) then Some ["Expected number, received nan"]
     else if (Number (Raw.amount raw) <=? 0)%float then Some [amountMessage] else None) ∧
  fieldErrors (flatten error) !! "status" =
    match Raw.status raw with
    | Str s => if inEnum s then None else Some [invalidEnumMessage s]
    | _ => Some [statusMessage]
    end.
Proof.
  intros (Hc & Ha & Hs)%messagesAt_failure.
  rewrite !flatten_fieldErrors, Hc, Ha, Hs. clear.
  destruct raw as [c a s].
  cbn [Omitted.customerId Omitted.amount Omitted.status Raw.customerId Raw.amount Raw.status
       Validated.CreateInvoice ZodObject.omit_id_date].
  change (Shape.customerId Validated.FormSchema)
    with (string_ {| invalid_type_error := Some customerMessage |}).
  change (Shape.status Validated.FormSchema)
    with (enum ["pending"; "paid"] {| invalid_type_error := Some statusMessage |}).
  rewrite parse_customerId, parse_status, parse_amount_strict.
  repeat split.
  - by destruct c.
  - destruct (is_nan (Number a)); [done|]. by destruct (Number a <=? 0)%float.
  - destruct s as [|s|]; [done| |done]. by destruct (inEnum s).
Qed.

(** ** The actions, by the outcome of validation and of the statement *)

(** [createInvoice] with form state, on data the schema rejected. *)
Lemma createInvoice_invalid (prevState : Validated.State) (formData : FormData) (w : World)
    (error : list ZodIssue) :
  ZodObject.safeParse Validated.CreateInvoice (rawOf formData) = failure error →
  Validated.createInvoice prevState formData w =
    ([], Return {| Validated.errors := Some (fieldErrors (flatten error));
                   Validated.message := Some missingFields |}).
Proof. intros H. unfold Validated.createInvoice. fold (rawOf formData). by rewrite H. Qed.

(** [createInvoice] with form state, on data the schema accepted. *)
Lemma createInvoice_valid (prevState : Validated.State) (formData : FormData) (w : World)
    (d : Data.t) :
  ZodObject.safeParse Validated.CreateInvoice (rawOf formData) = success d →
  Validated.createInvoice prevState formData w =
    let insert := INSERT_INTO_invoices (Data.customerId d) (Data.amount d * 100)%float
                    (Data.status d) (split_0 "T" (toISOString (clock w))) in
    match database w insert with
    | None => ([Sql insert; RevalidatePath listing; Redirect listing],
               Throw (NEXT_REDIRECT listing))
    | Some _ => ([Sql insert],
                 Return {| Validated.errors := None;
                           Validated.message := Some databaseError |})
    end.
Proof.
  intros H. unfold Validated.createInvoice. fold (rawOf formData). rewrite H.
  cbv zeta. unfold mbind, Async_bind, new_Date, try_catch, sql. cbn [app].
  by destruct (database w _).
Qed.

(** [updateInvoice], in either version, on data its schema rejected. *)
Lemma updateInvoice_invalid (id : string) (formData : FormData) (w : World)
    (error : list ZodIssue) :
  (ZodObject.safeParse Validated.UpdateInvoice (rawOf formData) = failure error →
   Validated.updateInvoice id formData w = ([], Throw (ZodError error))) ∧
  (ZodObject.safeParse Basic.UpdateInvoice (rawOf formData) = failure error →
   Basic.updateInvoice id formData w = ([], Throw (ZodError error))).
Proof.
  split; intros H.
  - unfold Validated.updateInvoice, parse. fold (rawOf formData). by rewrite H.
  - unfold Basic.updateInvoice, parse. fold (rawOf formData). by rewrite H.
Qed.

Lemma updateInvoice_valid (id : string) (formData : FormData) (w : World) (d : Data.t) :
  (ZodObject.safeParse Validated.UpdateInvoice (rawOf formData) = success d →
   Validated.updateInvoice id formData w = updateWith id d w) ∧
  (ZodObject.safeParse Basic.UpdateInvoice (rawOf formData) = success d →
   Basic.updateInvoice id formData w = updateWith id d w).
Proof.
  split; intros H.
  - unfold Validated.updateInvoice, parse, updateWith. fold (rawOf formData). rewrite H.
    cbv zeta. unfold mbind, Async_bind, try_catch, sql. cbn [app mret Async_ret].
    by destruct (database w _).
  - unfold Basic.updateInvoice, parse, updateWith. fold (rawOf formData). rewrite H.
    cbv zeta. unfold mbind, Async_bind, try_catch, sql. cbn [app mret Async_ret].
    by destruct (database w _).
Qed.

(** The basic [createInvoice]. *)
Lemma basic_createInvoice_invalid (formData : FormData) (w : World) (error : list ZodIssue) :
  ZodObject.safeParse Basic.CreateInvoice (rawOf formData) = failure error →
  Basic.createInvoice formData w = ([], Throw (ZodError error)).
Proof.
  intros H. unfold Basic.createInvoice, parse. fold (rawOf formData). by rewrite H.
Qed.

Lemma basic_createInvoice_valid (formData : FormData) (w : World) (d : Data.t) :
  ZodObject.safeParse Basic.CreateInvoice (rawOf formData) = success d →
  Basic.createInvoice formData w =
    let insert := INSERT_INTO_invoices (Data.customerId d) (Data.amount d * 100)%float
                    (Data.status d) (split_0 "T" (toISOString (clock w))) in
    match database w insert with
    | None => ([Sql insert; RevalidatePath listing; Redirect listing],
               Throw (NEXT_REDIRECT listing))
    | Some detail =>
        ([Sql insert; ConsoleError "Error inserting invoice:" (PostgresError detail)],
         Throw (Error "Failed to create invoice"))
    end.
Proof.
  intros H. unfold Basic.createInvoice, parse. fold (rawOf formData). rewrite H.
  cbv zeta. unfold mbind, Async_bind, new_Date, try_catch, sql. cbn [app mret Async_ret].
  by destruct (database w _).
Qed.

(** ** createInvoice with form state *)

(** C1 (as amended).  When a field of the submitted form fails its rule,
    [createInvoice] performs no effect at all (no statement is sent) and
    returns the message "Missing Fields. Failed to Create Invoice." with
    the field errors: "Please select a customer." for a [customerId] that
    is not a string (absent, or a file), "Please enter an amount greater
    than $0." for an [amount] that coerces to a number not above zero,
    "Please select an invoice status." for a [status] that is not a string
    (absent), and zod's own "Invalid enum value..." message for a [status]
    string outside the enumeration.  An empty [customerId] string is not a
    failure. *)
Theorem createInvoice_reports_field_errors
    (prevState : Validated.State) (formData : FormData) (w : World) :
  ¬ isString (get formData "customerId")
  ∨ (is_nan (Number (get formData "amount")) = false
     ∧ (0 <? Number (get formData "amount"))%float = false)
  ∨ (get formData "status" ≠ Str "pending" ∧ get formData "status" ≠ Str "paid") →
  ∃ errors : gmap string (list string),
    Validated.createInvoice prevState formData w =
      ([], Return {| Validated.errors := Some errors;
                     Validated.message := Some "Missing Fields. Failed to Create Invoice." |}) ∧
    (¬ isString (get formData "customerId") →
       errors !! "customerId" = Some ["Please select a customer."]) ∧
    (is_nan (Number (get formData "amount")) = false →
     (0 <? Number (get formData "amount"))%float = false →
       errors !! "amount" = Some ["Please enter an amount greater than $0."]) ∧
    (¬ isString (get formData "status") →
       errors !! "status" = Some ["Please select an invoice status."]) ∧
    (∀ s, get formData "status" = Str s → s ≠ "pending" → s ≠ "paid" →
       errors !! "status" = Some [invalidEnumMessage s]).
Proof.
  intros Hfail.
  destruct (ZodObject.safeParse Validated.CreateInvoice (rawOf formData)) as [d|error] eqn:Hparse.
  - exfalso. apply strict_success_iff in Hparse as (Hc & Ha & Hgt & Hs & Hin).
    simpl in Hc, Ha, Hs. apply inEnum_spec in Hin.
    destruct Hfail as [Hfail|[[_ Hfail]|[Hp Hq]]].
    + apply Hfail. by eexists.
    + rewrite Ha, Hgt in Hfail. discriminate.
    + rewrite Hs in Hp, Hq. destruct Hin as [E|E]; rewrite E in Hp, Hq; [by apply Hp|by apply Hq].
  - exists (fieldErrors (flatten error)).
    split; [by apply createInvoice_invalid|].
    destruct (strict_fieldErrors _ _ Hparse) as (Ec & Ea & Es). simpl in Ec, Ea, Es.
    repeat split.
    + intros Hc. rewrite Ec. destruct (get formData "customerId"); [done| |done].
      exfalso. apply Hc. by eexists.
    + intros Hnan Hgt. rewrite Ea, Hnan. by rewrite (not_gt_zero_too_small _ Hnan Hgt).
    + intros Hs. rewrite Es. destruct (get formData "status"); [done| |done].
      exfalso. apply Hs. by eexists.
    + intros s Hs Hp Hq. rewrite Es, Hs.
      destruct (inEnum s) eqn:Hin; [|done].
      apply inEnum_spec in Hin as [->| ->]; done.
Qed.

Lemma createInvoice_reports_field_errors_witness :
  ∃ errors : gmap string (list string),
    Validated.createInvoice noState [("amount", Str "-3"); ("status", Str "overdue")] storeUp =
      ([], Return {| Validated.errors := Some errors;
                     Validated.message := Some "Missing Fields. Failed to Create Invoice." |}) ∧
    errors !! "customerId" = Some ["Please select a customer."] ∧
    errors !! "amount" = Some ["Please enter an amount greater than $0."] ∧
    errors !! "status" =
      Some ["Invalid enum value. Expected 'pending' | 'paid', received 'overdue'"].
Proof.
  destruct (createInvoice_reports_field_errors noState
              [("amount", Str "-3"); ("status", Str "overdue")] storeUp)
    as (errors & Hrun & Hc & Ha & _ & Hs).
  { right; left. split; vm_compute; reflexivity. }
  exists errors. split; [exact Hrun|]. split; [|split].
  - apply Hc. intros [s Hs']. discriminate Hs'.
  - apply Ha; vm_compute; reflexivity.
  - apply (Hs "overdue"); [reflexivity|discriminate|discriminate].
Defined.

(** C1 (as stated) fails: an empty [customerId] string passes [z.string()],
    so the invoice is inserted and no error is returned; and a [status]
    string outside the enumeration is reported with zod's own message, not
    with "Please select an invoice status.". *)
Lemma createInvoice_accepts_empty_customerId :
  Validated.createInvoice noState
    [("customerId", Str ""); ("amount", Str "10"); ("status", Str "paid")] storeUp =
    ([Sql (INSERT_INTO_invoices "" (Number (Str "1000")) "paid" "2025-06-19");
      RevalidatePath "/dashboard/invoices"; Redirect "/dashboard/invoices"],
     Throw (NEXT_REDIRECT "/dashboard/invoices"))
  ∧ Validated.createInvoice noState
      [("customerId", Str "c1"); ("amount", Str "10"); ("status", Str "overdue")] storeUp =
    ([], Return {| Validated.errors :=
                     Some {[ "status" :=
                       ["Invalid enum value. Expected 'pending' | 'paid', received 'overdue'"] ]};
                   Validated.message := Some "Missing Fields. Failed to Create Invoice." |}).
Proof. split; vm_compute; reflexivity. Qed.

(** A form with a string [customerId], an [amount] above zero and a
    [status] of the enumeration parses to those values. *)
Lemma strict_accepts (formData : FormData) (customerId status : string) :
  get formData "customerId" = Str customerId →
  (0 <? Number (get formData "amount"))%float = true →
  get formData "status" = Str status →
  status = "pending" ∨ status = "paid" →
  ZodObject.safeParse Validated.CreateInvoice (rawOf formData) =
    success {| Data.customerId := customerId;
               Data.amount := Number (get formData "amount");
               Data.status := status |}.
Proof.
  intros Hc Ha Hs Hin. apply strict_success_iff. simpl.
  by rewrite Hc, Hs, inEnum_spec.
Qed.

(** C2.  For a valid payload (a string [customerId], an [amount] that
    coerces to a number above zero, a [status] of the enumeration),
    [createInvoice] sends exactly one statement: the INSERT of the
    customer, the raw product [amount * 100], the status and the current
    UTC date cut to [YYYY-MM-DD] (the clock being within the years 0000 to
    9999). *)
Theorem createInvoice_inserts_raw_product_and_date
    (prevState : Validated.State) (formData : FormData) (w : World)
    (customerId status : string) :
  get formData "customerId" = Str customerId →
  (0 <? Number (get formData "amount"))%float = true →
  get formData "status" = Str status →
  status = "pending" ∨ status = "paid" →
  fourDigitYear (clock w) →
  statements (Validated.createInvoice prevState formData w).1 =
    [INSERT_INTO_invoices customerId (Number (get formData "amount") * 100)%float
       status (currentDate (clock w))]
  ∧ is_YYYY_MM_DD (currentDate (clock w)) = true.
Proof.
  intros Hc Ha Hs Hin Hclock.
  rewrite (createInvoice_valid _ _ _ _ (strict_accepts _ _ _ Hc Ha Hs Hin)).
  cbv zeta. cbn [Data.customerId Data.amount Data.status].
  rewrite (toISOString_date _ Hclock). split; [|apply currentDate_form].
  by destruct (database w _).
Qed.

Lemma createInvoice_inserts_raw_product_and_date_witness :
  statements (Validated.createInvoice noState
                [("customerId", Str "c1"); ("amount", Str "19.99"); ("status", Str "paid")]
                storeUp).1 =
    [INSERT_INTO_invoices "c1" (Number (Str "19.99") * 100)%float "paid"
       (currentDate 1750334400123)]
  ∧ is_YYYY_MM_DD (currentDate 1750334400123) = true.
Proof.
  apply (createInvoice_inserts_raw_product_and_date noState
           [("customerId", Str "c1"); ("amount", Str "19.99"); ("status", Str "paid")]
           storeUp "c1" "paid").
  - reflexivity.
  - vm_compute; reflexivity.
  - reflexivity.
  - right; reflexivity.
  - unfold fourDigitYear; simpl; lia.
Defined.

(** The product is not rounded: 19.99 gives 1998.9999999999998 cents. *)
Example amountInCents_19_99 :
  (Number (Str "19.99") * 100)%float = Number (Str "1998.9999999999998") ∧
  ((Number (Str "19.99") * 100) <? Number (Str "1999"))%float = true ∧
  currentDate 1750334400123 = "2025-06-19".
Proof. repeat split; vm_compute; reflexivity. Qed.

(** C3.  When the INSERT fails, [createInvoice] returns
    [{ message: 'Database Error: Failed to Create Invoice.' }] without
    an [errors] key; it does not throw, and after the statement it neither
    revalidates the cache nor redirects. *)
Theorem createInvoice_returns_database_error
    (prevState : Validated.State) (formData : FormData) (w : World) (d : Data.t)
    (detail : string) :
  ZodObject.safeParse Validated.CreateInvoice (rawOf formData) = success d →
  database w (INSERT_INTO_invoices (Data.customerId d) (Data.amount d * 100)%float
                (Data.status d) (split_0 "T" (toISOString (clock w)))) = Some detail →
  Validated.createInvoice prevState formData w =
    ([Sql (INSERT_INTO_invoices (Data.customerId d) (Data.amount d * 100)%float
             (Data.status d) (split_0 "T" (toISOString (clock w))))],
     Return {| Validated.errors := None;
               Validated.message := Some "Database Error: Failed to Create Invoice." |}).
Proof.
  intros Hparse Hdb. rewrite (createInvoice_valid _ _ _ _ Hparse). cbv zeta. by rewrite Hdb.
Qed.

Lemma createInvoice_returns_database_error_witness :
  Validated.createInvoice noState
    [("customerId", Str "c1"); ("amount", Str "5"); ("status", Str "pending")] storeDown =
    ([Sql (INSERT_INTO_invoices "c1" (Number (Str "5") * 100)%float "pending"
             (split_0 "T" (toISOString 1750334400123)))],
     Return {| Validated.errors := None;
               Validated.message := Some "Database Error: Failed to Create Invoice." |}).
Proof.
  apply (createInvoice_returns_database_error noState
           [("customerId", Str "c1"); ("amount", Str "5"); ("status", Str "pending")]
           storeDown
           {| Data.customerId := "c1"; Data.amount := Number (Str "5");
              Data.status := "pending" |} "connection refused").
  - vm_compute; reflexivity.
  - reflexivity.
Defined.

(** ** updateInvoice *)

(** C4.  On a payload that fails validation, [updateInvoice] of the
    version with form state throws the [ZodError], where [createInvoice] of
    the same version returns the flattened field errors as a value; neither
    sends a statement. *)
Theorem updateInvoice_throws_where_createInvoice_returns
    (prevState : Validated.State) (id : string) (formData : FormData) (w : World)
    (error : list ZodIssue) :
  ZodObject.safeParse Validated.UpdateInvoice (rawOf formData) = failure error →
  Validated.updateInvoice id formData w = ([], Throw (ZodError error)) ∧
  Validated.createInvoice prevState formData w =
    ([], Return {| Validated.errors := Some (fieldErrors (flatten error));
                   Validated.message := Some "Missing Fields. Failed to Create Invoice." |}).
Proof.
  intros Hparse. split.
  - by apply updateInvoice_invalid.
  - by apply createInvoice_invalid.
Qed.

Lemma updateInvoice_throws_where_createInvoice_returns_witness :
  let error := [{| code := too_small; path := ["amount"];
                   message := "Please enter an amount greater than $0." |}] in
  let formData := [("customerId", Str "c1"); ("amount", Str "0"); ("status", Str "paid")] in
  Validated.updateInvoice "7" formData storeUp = ([], Throw (ZodError error)) ∧
  Validated.createInvoice noState formData storeUp =
    ([], Return {| Validated.errors := Some (fieldErrors (flatten error));
                   Validated.message := Some "Missing Fields. Failed to Create Invoice." |}).
Proof.
  intros error formData.
  apply (updateInvoice_throws_where_createInvoice_returns noState "7" formData storeUp error).
  vm_compute; reflexivity.
Defined.

(** C5.  For a valid payload, [updateInvoice] sends exactly one statement,
    the UPDATE of [customer_id], [amount] (the input times 100) and
    [status] of the row [id].  When the store accepts it, the listing is
    revalidated and the action redirects to it; when the store rejects it,
    the error is logged and [Error('Failed to update invoice')] is thrown. *)
Theorem updateInvoice_updates_once
    (id : string) (formData : FormData) (w : World) (customerId status : string) :
  get formData "customerId" = Str customerId →
  (0 <? Number (get formData "amount"))%float = true →
  get formData "status" = Str status →
  status = "pending" ∨ status = "paid" →
  Validated.updateInvoice id formData w =
    match database w (UPDATE_invoices customerId (Number (get formData "amount") * 100)%float
                        status id) with
    | None =>
        ([Sql (UPDATE_invoices customerId (Number (get formData "amount") * 100)%float
                 status id);
          RevalidatePath "/dashboard/invoices"; Redirect "/dashboard/invoices"],
         Throw (NEXT_REDIRECT "/dashboard/invoices"))
    | Some detail =>
        ([Sql (UPDATE_invoices customerId (Number (get formData "amount") * 100)%float
                 status id);
          ConsoleError "Error updating invoice:" (PostgresError detail)],
         Throw (Error "Failed to update invoice"))
    end.
Proof.
  intros Hc Ha Hs Hin.
  by rewrite (proj1 (updateInvoice_valid id _ w _) (strict_accepts _ _ _ Hc Ha Hs Hin)).
Qed.

Lemma updateInvoice_updates_once_witness :
  Validated.updateInvoice "7"
    [("customerId", Str "c1"); ("amount", Str "5"); ("status", Str "paid")] storeUp =
    ([Sql (UPDATE_invoices "c1" (Number (Str "5") * 100)%float "paid" "7");
      RevalidatePath "/dashboard/invoices"; Redirect "/dashboard/invoices"],
     Throw (NEXT_REDIRECT "/dashboard/invoices"))
  ∧ Validated.updateInvoice "7"
    [("customerId", Str "c1"); ("amount", Str "5"); ("status", Str "paid")] storeDown =
    ([Sql (UPDATE_invoices "c1" (Number (Str "5") * 100)%float "paid" "7");
      ConsoleError "Error updating invoice:" (PostgresError "connection refused")],
     Throw (Error "Failed to update invoice")).
Proof.
  split.
  - apply (updateInvoice_updates_once "7"
             [("customerId", Str "c1"); ("amount", Str "5"); ("status", Str "paid")]
             storeUp "c1" "paid");
      [reflexivity | vm_compute; reflexivity | reflexivity | right; reflexivity].
  - apply (updateInvoice_updates_once "7"
             [("customerId", Str "c1"); ("amount", Str "5"); ("status", Str "paid")]
             storeDown "c1" "paid");
      [reflexivity | vm_compute; reflexivity | reflexivity | right; reflexivity].
Defined.

(** ** The strict schema *)

(** C6.  Whatever the create and update validation of the version with
    form state accepts has an amount above zero and a status that is
    exactly "pending" or "paid"; the accepted amount and status are the
    submitted ones (coerced, for the amount), so no payload with another
    amount or status is accepted. *)
Theorem strict_schema_accepts_only_positive_amount_and_enum_status
    (raw : Raw.t) (d : Data.t) :
  ZodObject.safeParse Validated.CreateInvoice raw = success d
  ∨ ZodObject.safeParse Validated.UpdateInvoice raw = success d →
  (0 <? Data.amount d)%float = true ∧
  (Data.status d = "pending" ∨ Data.status d = "paid") ∧
  Number (Raw.amount raw) = Data.amount d ∧
  Raw.status raw = Str (Data.status d).
Proof.
  rewrite UpdateInvoice_strict. intros Hparse.
  assert (H : ZodObject.safeParse Validated.CreateInvoice raw = success d) by tauto.
  apply strict_success_iff in H as (_ & Ha & Hgt & Hs & Hin%inEnum_spec). done.
Qed.

Lemma strict_schema_accepts_only_positive_amount_and_enum_status_witness :
  (0 <? Number (Str "19.99"))%float = true ∧
  ("paid" = "pending" ∨ "paid" = "paid") ∧
  Number (Str "19.99") = Number (Str "19.99") ∧
  Str "paid" = Str "paid".
Proof.
  apply (strict_schema_accepts_only_positive_amount_and_enum_status
           {| Raw.customerId := Str "c1"; Raw.amount := Str "19.99"; Raw.status := Str "paid" |}
           {| Data.customerId := "c1"; Data.amount := Number (Str "19.99");
              Data.status := "paid" |}).
  left. vm_compute; reflexivity.
Defined.

(** The converse: an amount that does not coerce to a number above zero,
    or a status other than the two strings, makes the strict parse fail. *)
Lemma strict_schema_rejects (raw : Raw.t) :
  (0 <? Number (Raw.amount raw))%float = false
  ∨ (Raw.status raw ≠ Str "pending" ∧ Raw.status raw ≠ Str "paid") →
  ∃ error, ZodObject.safeParse Validated.CreateInvoice raw = failure error.
Proof.
  intros Hbad.
  destruct (ZodObject.safeParse Validated.CreateInvoice raw) as [d|error] eqn:Hparse;
    [|by eexists].
  apply strict_success_iff in Hparse as (_ & Ha & Hgt & Hs & Hin%inEnum_spec).
  exfalso. destruct Hbad as [Hbad|[Hp Hq]].
  - rewrite Ha, Hgt in Hbad. discriminate.
  - rewrite Hs in Hp, Hq. destruct Hin as [E|E]; rewrite E in Hp, Hq; [by apply Hp|by apply Hq].
Qed.

(** ** deleteInvoice *)

(** C7.  In both versions [deleteInvoice] sends exactly one statement, the
    DELETE of the row [id]; when the store accepts it the listing is
    revalidated and the action returns, without redirecting; when the
    store rejects it the store's error is thrown as it is, and nothing is
    logged or revalidated. *)
Theorem deleteInvoice_deletes_then_revalidates (id : string) (w : World) :
  Validated.deleteInvoice id w =
    match database w (DELETE_FROM_invoices id) with
    | None => ([Sql (DELETE_FROM_invoices id); RevalidatePath "/dashboard/invoices"],
               Return ())
    | Some detail => ([Sql (DELETE_FROM_invoices id)], Throw (PostgresError detail))
    end
  ∧ Basic.deleteInvoice id w = Validated.deleteInvoice id w.
Proof.
  split; [|reflexivity].
  unfold Validated.deleteInvoice, mbind, Async_bind, sql, revalidatePath.
  by destruct (database w _).
Qed.

(** ** The two versions of updateInvoice *)

(** When the amount is not a number at or below zero, the issues of the
    two schemas differ in their messages only. *)
Lemma failures_same_shape (raw : Raw.t) (e1 e2 : list ZodIssue) :
  (Number (Raw.amount raw) <=? 0)%float = false →
  ZodObject.safeParse Basic.CreateInvoice raw = failure e1 →
  ZodObject.safeParse Validated.CreateInvoice raw = failure e2 →
  (λ sub, (code sub, path sub)) <$> e1 = (λ sub, (code sub, path sub)) <$> e2.
Proof.
  intros Hle. revert e1 e2.
  assert (G : ∀ r1 r2,
    ZodObject.safeParse Basic.CreateInvoice raw = r1 →
    ZodObject.safeParse Validated.CreateInvoice raw = r2 →
    ∀ e1 e2, r1 = failure e1 → r2 = failure e2 →
    (λ sub, (code sub, path sub)) <$> e1 = (λ sub, (code sub, path sub)) <$> e2).
  { intros r1 r2 <-. field_cases raw. intros <-. simpl in Hle. rewrite Hle.
    destruct c as [|c|]; destruct (is_nan (Number a));
      destruct s as [|s|]; try destruct (inEnum s);
      intros e1 e2 [= <-] [= <-]; reflexivity. }
  intros e1 e2 H1 H2. by apply (G _ _ H1 H2).
Qed.

(** A number at or below zero is not NaN. *)
Lemma at_most_zero_is_number (x : float) : (x <=? 0)%float = true → is_nan x = false.
Proof.
  intros Hle. destruct (is_nan x) eqn:Hnan; [|done].
  rewrite (proj2 (nan_not_compared x Hnan)) in Hle. discriminate.
Qed.

(** C8 (as amended).  On every payload whose amount does not coerce to a
    number at or below zero, the two versions of [updateInvoice] do the
    same: the same effects in the same order (the same UPDATE with the same
    bound values, then the same revalidation and redirect, or the same
    logged error), and the same completion, up to the wording of the
    messages inside a thrown [ZodError].  On every payload whose amount
    coerces to a number at or below zero, the version with form state
    throws a [ZodError] holding the amount's [too_small] issue, before any
    effect, while the basic version accepts the amount: a [ZodError] it
    throws holds no issue of the amount, and with a string [customerId]
    and a status of the enumeration it sends the UPDATE with one hundred
    times that amount. *)
Theorem updateInvoice_versions_agree (id : string) (formData : FormData) (w : World) :
  ((Number (get formData "amount") <=? 0)%float = false →
   (Basic.updateInvoice id formData w).1 = (Validated.updateInvoice id formData w).1 ∧
   sameCompletion (Basic.updateInvoice id formData w).2
     (Validated.updateInvoice id formData w).2) ∧
  ((Number (get formData "amount") <=? 0)%float = true →
   (∃ issues,
      Validated.updateInvoice id formData w = ([], Throw (ZodError issues)) ∧
      {| code := too_small; path := ["amount"];
         message := "Please enter an amount greater than $0." |} ∈ issues) ∧
   (∀ issues,
      Basic.updateInvoice id formData w = ([], Throw (ZodError issues)) →
      ∀ sub, sub ∈ issues → path sub ≠ ["amount"]) ∧
   (∀ customerId status,
      get formData "customerId" = Str customerId →
      get formData "status" = Str status →
      status = "pending" ∨ status = "paid" →
      Basic.updateInvoice id formData w =
        match database w (UPDATE_invoices customerId
                            (Number (get formData "amount") * 100)%float status id) with
        | None =>
            ([Sql (UPDATE_invoices customerId (Number (get formData "amount") * 100)%float
                     status id);
              RevalidatePath "/dashboard/invoices"; Redirect "/dashboard/invoices"],
             Throw (NEXT_REDIRECT "/dashboard/invoices"))
        | Some detail =>
            ([Sql (UPDATE_invoices customerId (Number (get formData "amount") * 100)%float
                     status id);
              ConsoleError "Error updating invoice:" (PostgresError detail)],
             Throw (Error "Failed to update invoice"))
        end)).
Proof.
  split; intros Hle.
  - destruct (ZodObject.safeParse Validated.UpdateInvoice (rawOf formData)) as [d|e2] eqn:H2.
    + assert (H1 : ZodObject.safeParse Basic.UpdateInvoice (rawOf formData) = success d).
      { apply strict_success_iff in H2 as (Hc & Ha & Hgt & Hs & Hin).
        apply basic_success_iff. repeat split; try done. by apply gt_zero_passes. }
      rewrite (proj1 (updateInvoice_valid id _ w _) H2),
        (proj2 (updateInvoice_valid id _ w _) H1).
      split; [done|]. unfold updateWith. by destruct (database w _).
    + destruct (ZodObject.safeParse Basic.UpdateInvoice (rawOf formData)) as [d|e1] eqn:H1.
      * exfalso. apply basic_success_iff in H1 as (Hc & Ha & Hnan & Hs & Hin).
        assert (H : ZodObject.safeParse Validated.UpdateInvoice (rawOf formData) = success d).
        { apply strict_success_iff. repeat split; try done.
          apply not_gt_zero_too_small_contra; [done|]. rewrite <- Ha. exact Hle. }
        rewrite H in H2. discriminate.
      * rewrite (proj1 (updateInvoice_invalid id _ w _) H2),
          (proj2 (updateInvoice_invalid id _ w _) H1).
        split; [done|]. simpl. by apply (failures_same_shape (rawOf formData)).
  - pose proof (at_most_zero_is_number _ Hle) as Hnan.
    split; [|split].
    + destruct (ZodObject.safeParse Validated.UpdateInvoice (rawOf formData)) as [d|e] eqn:H.
      * exfalso. apply strict_success_iff in H as (_ & Ha & Hgt & _). simpl in Ha.
        rewrite <- Ha in Hgt. rewrite (proj2 (gt_zero_passes _ Hgt)) in Hle. discriminate.
      * exists e. split; [by apply updateInvoice_invalid|].
        apply safeParse_failure in H as ->.
        rewrite !elem_of_app. right; left.
        cbn [Omitted.amount Validated.UpdateInvoice ZodObject.omit_id_date Raw.amount rawOf].
        rewrite parse_amount_strict, Hnan, Hle. cbn [issuesOf]. by left.
    + intros issues Hrun sub Hsub.
      destruct (ZodObject.safeParse Basic.UpdateInvoice (rawOf formData)) as [d|e] eqn:H.
      * rewrite (proj2 (updateInvoice_valid id _ w _) H) in Hrun. unfold updateWith in Hrun.
        destruct (database w _); discriminate Hrun.
      * rewrite (proj2 (updateInvoice_invalid id _ w _) H) in Hrun. injection Hrun as <-.
        apply safeParse_failure in H as ->.
        rewrite !elem_of_app in Hsub. destruct Hsub as [Hsub|[Hsub|Hsub]].
        -- by rewrite (parse_issue_path _ _ _ _ Hsub).
        -- revert Hsub.
           cbn [Omitted.amount Basic.UpdateInvoice ZodObject.omit_id_date Raw.amount rawOf].
           rewrite parse_amount_basic, Hnan. cbn [issuesOf]. by intros ?%elem_of_nil.
        -- by rewrite (parse_issue_path _ _ _ _ Hsub).
    + intros customerId status Hc Hs Hin.
      assert (H : ZodObject.safeParse Basic.UpdateInvoice (rawOf formData) =
                success {| Data.customerId := customerId;
                           Data.amount := Number (get formData "amount");
                           Data.status := status |}).
      { apply basic_success_iff. simpl. by rewrite Hc, Hs, inEnum_spec. }
      by rewrite (proj2 (updateInvoice_valid id _ w _) H).
Qed.

Lemma updateInvoice_versions_agree_witness :
  let formData := [("amount", Str "12.5"); ("status", Str "paid")] in
  let formData' := [("customerId", Str "c1"); ("amount", Str "-3"); ("status", Str "paid")] in
  ((Basic.updateInvoice "7" formData storeUp).1 = (Validated.updateInvoice "7" formData storeUp).1 ∧
   sameCompletion (Basic.updateInvoice "7" formData storeUp).2
     (Validated.updateInvoice "7" formData storeUp).2) ∧
  (∃ issues,
     Validated.updateInvoice "7" formData' storeUp = ([], Throw (ZodError issues)) ∧
     {| code := too_small; path := ["amount"];
        message := "Please enter an amount greater than $0." |} ∈ issues) ∧
  Basic.updateInvoice "7" formData' storeUp =
    ([Sql (UPDATE_invoices "c1" (Number (Str "-3") * 100)%float "paid" "7");
      RevalidatePath "/dashboard/invoices"; Redirect "/dashboard/invoices"],
     Throw (NEXT_REDIRECT "/dashboard/invoices")).
Proof.
  intros formData formData'. split; [|split].
  - apply (proj1 (updateInvoice_versions_agree "7" formData storeUp)).
    vm_compute; reflexivity.
  - apply (proj2 (updateInvoice_versions_agree "7" formData' storeUp)).
    vm_compute; reflexivity.
  - destruct (proj2 (updateInvoice_versions_agree "7" formData' storeUp)) as (_ & _ & Hbasic);
      [vm_compute; reflexivity|].
    apply (Hbasic "c1" "paid"); [reflexivity | reflexivity | right; reflexivity].
Defined.

(** C8 (as stated) fails: an amount of zero is rejected by the version
    with form state, whose schema has [gt(0)], and accepted by the basic
    version, which sends the UPDATE with amount 0. *)
Lemma updateInvoice_versions_differ_on_zero_amount :
  Validated.updateInvoice "7"
    [("customerId", Str "c1"); ("amount", Str "0"); ("status", Str "paid")] storeUp =
    ([], Throw (ZodError [{| code := too_small; path := ["amount"];
                             message := "Please enter an amount greater than $0." |}]))
  ∧ Basic.updateInvoice "7"
    [("customerId", Str "c1"); ("amount", Str "0"); ("status", Str "paid")] storeUp =
    ([Sql (UPDATE_invoices "c1" (Number (Str "0")) "paid" "7");
      RevalidatePath "/dashboard/invoices"; Redirect "/dashboard/invoices"],
     Throw (NEXT_REDIRECT "/dashboard/invoices")).
Proof. split; vm_compute; reflexivity. Qed.

(** ** The basic createInvoice *)

(** C9.  When the amount field does not coerce to a number, the basic
    [createInvoice] throws a [ZodError] carrying the issue of the amount
    and performs no effect: no statement is sent. *)
Theorem basic_createInvoice_throws_on_nan_amount (formData : FormData) (w : World) :
  is_nan (Number (get formData "amount")) = true →
  ∃ issues,
    Basic.createInvoice formData w = ([], Throw (ZodError issues)) ∧
    {| code := invalid_type; path := ["amount"];
       message := "Expected number, received nan" |} ∈ issues.
Proof.
  intros Hnan.
  destruct (ZodObject.safeParse Basic.CreateInvoice (rawOf formData)) as [d|error] eqn:Hparse.
  - apply basic_success_iff in Hparse as (_ & Ha & Hd & _). simpl in Ha.
    rewrite <- Ha, Hnan in Hd. discriminate.
  - exists error. split; [by apply basic_createInvoice_invalid|].
    apply safeParse_failure in Hparse as ->.
    rewrite !elem_of_app. right; left.
    cbn [Omitted.amount Basic.CreateInvoice ZodObject.omit_id_date Raw.amount rawOf].
    rewrite parse_amount_basic, Hnan. simpl. by left.
Qed.

Lemma basic_createInvoice_throws_on_nan_amount_witness :
  ∃ issues,
    Basic.createInvoice
      [("customerId", Str "c1"); ("amount", Str "abc"); ("status", Str "paid")] storeUp =
      ([], Throw (ZodError issues)) ∧
    {| code := invalid_type; path := ["amount"];
       message := "Expected number, received nan" |} ∈ issues.
Proof.
  apply (basic_createInvoice_throws_on_nan_amount
           [("customerId", Str "c1"); ("amount", Str "abc"); ("status", Str "paid")] storeUp).
  vm_compute; reflexivity.
Defined.

(** C10.  In the basic version an absent or empty amount coerces to 0 and
    is accepted: with a string [customerId] and a [status] of the
    enumeration, [createInvoice] throws no [ZodError] but sends the INSERT
    with amount 0 and, the store accepting it, revalidates and redirects. *)
Theorem basic_createInvoice_inserts_zero_amount
    (formData : FormData) (w : World) (customerId status : string) :
  get formData "amount" = Null ∨ get formData "amount" = Str "" →
  get formData "customerId" = Str customerId →
  get formData "status" = Str status →
  status = "pending" ∨ status = "paid" →
  Number (get formData "amount") = 0%float ∧
  Basic.createInvoice formData w =
    match database w (INSERT_INTO_invoices customerId 0 status
                        (split_0 "T" (toISOString (clock w)))) with
    | None =>
        ([Sql (INSERT_INTO_invoices customerId 0 status (split_0 "T" (toISOString (clock w))));
          RevalidatePath "/dashboard/invoices"; Redirect "/dashboard/invoices"],
         Throw (NEXT_REDIRECT "/dashboard/invoices"))
    | Some detail =>
        ([Sql (INSERT_INTO_invoices customerId 0 status (split_0 "T" (toISOString (clock w))));
          ConsoleError "Error inserting invoice:" (PostgresError detail)],
         Throw (Error "Failed to create invoice"))
    end.
Proof.
  intros Ha Hc Hs Hin.
  assert (Hzero : Number (get formData "amount") = 0%float)
    by (destruct Ha as [-> | ->]; reflexivity).
  split; [exact Hzero|].
  assert (Hparse : ZodObject.safeParse Basic.CreateInvoice (rawOf formData) =
            success {| Data.customerId := customerId; Data.amount := 0; Data.status := status |}).
  { apply basic_success_iff. simpl. by rewrite Hzero, Hc, Hs, inEnum_spec. }
  by rewrite (basic_createInvoice_valid _ w _ Hparse).
Qed.

Lemma basic_createInvoice_inserts_zero_amount_witness :
  Number (get [("customerId", Str "c1"); ("status", Str "paid")] "amount") = 0%float ∧
  Basic.createInvoice [("customerId", Str "c1"); ("status", Str "paid")] storeUp =
    ([Sql (INSERT_INTO_invoices "c1" 0 "paid" (split_0 "T" (toISOString 1750334400123)));
      RevalidatePath "/dashboard/invoices"; Redirect "/dashboard/invoices"],
     Throw (NEXT_REDIRECT "/dashboard/invoices")).
Proof.
  apply (basic_createInvoice_inserts_zero_amount
           [("customerId", Str "c1"); ("status", Str "paid")] storeUp "c1" "paid");
    [left; reflexivity | reflexivity | reflexivity | right; reflexivity].
Defined.

(** * Further properties of the actions *)

(** ** The shape of the effects *)

Lemma traces_shape (prevState : Validated.State) (id : string) (formData : FormData)
    (w : World) :
  Forall (effectsShape w) (traces prevState id formData w).
Proof.
  unfold traces. repeat (apply List.Forall_cons); [..|apply List.Forall_nil].
  - destruct (ZodObject.safeParse Validated.CreateInvoice (rawOf formData)) as [d|e] eqn:H.
    + rewrite (createInvoice_valid _ _ w _ H). cbv zeta.
      destruct (database w _) eqn:Hdb; cbn [fst].
      * right; right. eexists _, _. split; [exact Hdb|]. by left.
      * right; left. eexists. split; [exact Hdb|]. by left.
    + rewrite (createInvoice_invalid _ _ w _ H). by left.
  - destruct (ZodObject.safeParse Validated.UpdateInvoice (rawOf formData)) as [d|e] eqn:H.
    + rewrite (proj1 (updateInvoice_valid id _ w _) H). unfold updateWith.
      destruct (database w _) eqn:Hdb; cbn [fst].
      * right; right. eexists _, _. split; [exact Hdb|]. right. by eexists.
      * right; left. eexists. split; [exact Hdb|]. by left.
    + rewrite (proj1 (updateInvoice_invalid id _ w _) H). by left.
  - unfold Validated.deleteInvoice, mbind, Async_bind, sql, revalidatePath.
    destruct (database w _) eqn:Hdb; cbn [fst].
    + right; right. eexists _, _. split; [exact Hdb|]. by left.
    + right; left. eexists. split; [exact Hdb|]. by right.
  - destruct (ZodObject.safeParse Basic.CreateInvoice (rawOf formData)) as [d|e] eqn:H.
    + rewrite (basic_createInvoice_valid _ w _ H). cbv zeta.
      destruct (database w _) eqn:Hdb; cbn [fst].
      * right; right. eexists _, _. split; [exact Hdb|]. right. by eexists.
      * right; left. eexists. split; [exact Hdb|]. by left.
    + rewrite (basic_createInvoice_invalid _ w _ H). by left.
  - destruct (ZodObject.safeParse Basic.UpdateInvoice (rawOf formData)) as [d|e] eqn:H.
    + rewrite (proj2 (updateInvoice_valid id _ w _) H). unfold updateWith.
      destruct (database w _) eqn:Hdb; cbn [fst].
      * right; right. eexists _, _. split; [exact Hdb|]. right. by eexists.
      * right; left. eexists. split; [exact Hdb|]. by left.
    + rewrite (proj2 (updateInvoice_invalid id _ w _) H). by left.
  - unfold Basic.deleteInvoice, mbind, Async_bind, sql, revalidatePath.
    destruct (database w _) eqn:Hdb; cbn [fst].
    + right; right. eexists _, _. split; [exact Hdb|]. by left.
    + right; left. eexists. split; [exact Hdb|]. by right.
Qed.

(** X1.  No action sends more than one statement, and a statement is
    always the first effect of the call: nothing is revalidated, logged or
    redirected before the store has answered. *)
Theorem actions_send_at_most_one_statement_first
    (prevState : Validated.State) (id : string) (formData : FormData) (w : World) :
  Forall (λ trace,
            length (statements trace) ≤ 1 ∧
            (trace = [] ∨ ∃ q rest, trace = Sql q :: rest ∧ statements rest = []))%nat
         (traces prevState id formData w).
Proof.
  eapply Forall_impl; [apply traces_shape|].
  intros trace [->|[(q & _ & [->| ->])|(q & detail & _ & [->|[label ->]])]]; simpl;
    (split; [lia|]); first [by left | right; by eexists _, _].
Qed.

(** X2.  The listing is revalidated, and the caller redirected, only
    after a statement that the store accepted, and only to
    "/dashboard/invoices"; an error is logged only after a statement that
    the store rejected, and it is that store error. *)
Theorem actions_revalidate_only_after_accepted_statement
    (prevState : Validated.State) (id : string) (formData : FormData) (w : World) :
  Forall (λ trace,
            (∀ path, RevalidatePath path ∈ trace ∨ Redirect path ∈ trace →
               path = "/dashboard/invoices" ∧
               ∃ q rest, trace = Sql q :: RevalidatePath path :: rest ∧ database w q = None) ∧
            (∀ label error, ConsoleError label error ∈ trace →
               ∃ q detail, trace = [Sql q; ConsoleError label error] ∧
                           error = PostgresError detail ∧ database w q = Some detail))
         (traces prevState id formData w).
Proof.
  eapply Forall_impl; [apply traces_shape|].
  intros trace [->|[(q & Hq & [->| ->])|(q & detail & Hq & [->|[label ->]])]];
    (split; [intros path|intros label' error]);
    rewrite ?elem_of_cons, ?elem_of_nil; intros H;
    repeat (destruct H as [H|H]); try discriminate H; try contradiction H;
    injection H as ->; try subst error; eauto 10.
Qed.

(** ** How the calls complete *)

(** X3.  [createInvoice] with form state completes in exactly three ways:
    it returns the field errors without any effect; or it sends the INSERT,
    the store rejects it and it returns the database message; or the store
    accepts it and the call leaves by the redirect.  It never throws a
    [ZodError], an [Error] or the store's error, and a returned state
    always carries a message. *)
Theorem createInvoice_completes_three_ways
    (prevState : Validated.State) (formData : FormData) (w : World) :
  (∃ errors,
     Validated.createInvoice prevState formData w =
       ([], Return {| Validated.errors := Some errors;
                      Validated.message := Some "Missing Fields. Failed to Create Invoice." |}))
  ∨ (∃ q detail, database w q = Some detail ∧
     Validated.createInvoice prevState formData w =
       ([Sql q], Return {| Validated.errors := None;
                           Validated.message := Some "Database Error: Failed to Create Invoice." |}))
  ∨ (∃ q, database w q = None ∧
     Validated.createInvoice prevState formData w =
       ([Sql q; RevalidatePath "/dashboard/invoices"; Redirect "/dashboard/invoices"],
        Throw (NEXT_REDIRECT "/dashboard/invoices"))).
Proof.
  destruct (ZodObject.safeParse Validated.CreateInvoice (rawOf formData)) as [d|e] eqn:H.
  - rewrite (createInvoice_valid _ _ w _ H). cbv zeta.
    destruct (database w _) eqn:Hdb.
    + right; left. by eexists _, _.
    + right; right. by eexists.
  - left. eexists. by apply createInvoice_invalid.
Qed.

(** X4.  [updateInvoice] of both versions and the basic [createInvoice]
    never return normally: they throw the [ZodError] before any effect,
    or the action's own [Error] after a rejected statement, or the
    redirect.  The store's own error never reaches their caller. *)
Theorem update_and_basic_create_always_throw
    (id : string) (formData : FormData) (w : World) :
  Forall (λ r : list Effect * Completion (),
            ∃ e, r.2 = Throw e ∧
              ((∃ issues, e = ZodError issues ∧ r.1 = [])
               ∨ ((e = Error "Failed to update invoice" ∨ e = Error "Failed to create invoice")
                  ∧ ∃ q detail label, database w q = Some detail ∧
                      r.1 = [Sql q; ConsoleError label (PostgresError detail)])
               ∨ (e = NEXT_REDIRECT "/dashboard/invoices"
                  ∧ ∃ q, database w q = None ∧
                      r.1 = [Sql q; RevalidatePath "/dashboard/invoices";
                             Redirect "/dashboard/invoices"])))
         [ Validated.updateInvoice id formData w;
           Basic.updateInvoice id formData w;
           Basic.createInvoice formData w ].
Proof.
  repeat (apply List.Forall_cons); [..|apply List.Forall_nil].
  - destruct (ZodObject.safeParse Validated.UpdateInvoice (rawOf formData)) as [d|e] eqn:H.
    + rewrite (proj1 (updateInvoice_valid id _ w _) H). unfold updateWith.
      destruct (database w _) eqn:Hdb; eexists; (split; [reflexivity|]); cbn [fst].
      * right; left. split; [by left|]. by eexists _, _, _.
      * right; right. split; [done|]. by eexists.
    + rewrite (proj1 (updateInvoice_invalid id _ w _) H). eexists. split; [done|].
      left. by eexists.
  - destruct (ZodObject.safeParse Basic.UpdateInvoice (rawOf formData)) as [d|e] eqn:H.
    + rewrite (proj2 (updateInvoice_valid id _ w _) H). unfold updateWith.
      destruct (database w _) eqn:Hdb; eexists; (split; [reflexivity|]); cbn [fst].
      * right; left. split; [by left|]. by eexists _, _, _.
      * right; right. split; [done|]. by eexists.
    + rewrite (proj2 (updateInvoice_invalid id _ w _) H). eexists. split; [done|].
      left. by eexists.
  - destruct (ZodObject.safeParse Basic.CreateInvoice (rawOf formData)) as [d|e] eqn:H.
    + rewrite (basic_createInvoice_valid _ w _ H). cbv zeta.
      destruct (database w _) eqn:Hdb; eexists; (split; [reflexivity|]); cbn [fst].
      * right; left. split; [by right|]. by eexists _, _, _.
      * right; right. split; [done|]. by eexists.
    + rewrite (basic_createInvoice_invalid _ w _ H). eexists. split; [done|].
      left. by eexists.
Qed.

(** ** What is written to the store *)

(** X5.  The version with form state writes validated data only: a
    statement sent by its [createInvoice] or [updateInvoice] binds the
    submitted [customerId] string, one hundred times the submitted amount,
    which is a number above zero, and a status that is "pending" or
    "paid"; the INSERT carries the date of the clock and the UPDATE
    targets the row [id]. *)
Theorem validated_actions_write_valid_data_only
    (prevState : Validated.State) (id : string) (formData : FormData) (w : World)
    (q : Statement) :
  q ∈ statements (Validated.createInvoice prevState formData w).1
  ∨ q ∈ statements (Validated.updateInvoice id formData w).1 →
  ∃ customerId status,
    get formData "customerId" = Str customerId ∧
    get formData "status" = Str status ∧
    (status = "pending" ∨ status = "paid") ∧
    (0 <? Number (get formData "amount"))%float = true ∧
    (q = INSERT_INTO_invoices customerId (Number (get formData "amount") * 100)%float status
           (split_0 "T" (toISOString (clock w)))
     ∨ q = UPDATE_invoices customerId (Number (get formData "amount") * 100)%float status id).
Proof.
  destruct (ZodObject.safeParse Validated.CreateInvoice (rawOf formData)) as [d|e] eqn:H.
  - rewrite (createInvoice_valid _ _ w _ H), (proj1 (updateInvoice_valid id _ w _) H).
    apply strict_success_iff in H as (Hc & Ha & Hgt & Hs & Hin%inEnum_spec).
    simpl in Hc, Ha, Hs. cbv zeta. unfold updateWith. rewrite <- Ha in *.
    intros Hq. exists (Data.customerId d), (Data.status d).
    repeat (split; [done|]).
    destruct Hq as [Hq|Hq]; destruct (database w _);
      unfold statements in Hq; cbn [omap list_omap fst] in Hq;
      apply list_elem_of_singleton in Hq as ->; first [by left | by right].
  - rewrite (createInvoice_invalid _ _ w _ H), (proj1 (updateInvoice_invalid id _ w _) H).
    cbn. rewrite !elem_of_nil. tauto.
Qed.

Lemma validated_actions_write_valid_data_only_witness :
  ∃ customerId status,
    get [("customerId", Str "c1"); ("amount", Str "19.99"); ("status", Str "paid")]
      "customerId" = Str customerId ∧
    get [("customerId", Str "c1"); ("amount", Str "19.99"); ("status", Str "paid")]
      "status" = Str status ∧
    (status = "pending" ∨ status = "paid") ∧
    (0 <? Number (Str "19.99"))%float = true ∧
    (UPDATE_invoices "c1" (Number (Str "19.99") * 100)%float "paid" "7" =
       INSERT_INTO_invoices customerId (Number (Str "19.99") * 100)%float status
         (split_0 "T" (toISOString 1750334400123))
     ∨ UPDATE_invoices "c1" (Number (Str "19.99") * 100)%float "paid" "7" =
       UPDATE_invoices customerId (Number (Str "19.99") * 100)%float status "7").
Proof.
  apply (validated_actions_write_valid_data_only noState "7"
           [("customerId", Str "c1"); ("amount", Str "19.99"); ("status", Str "paid")]
           storeDown).
  right. vm_compute. left.
Defined.

(** X6.  The basic version applies no lower bound: a statement sent by its
    [createInvoice] or [updateInvoice] binds the submitted [customerId]
    string, one hundred times the submitted amount, which is any number
    but NaN (zero and negative amounts included), and a status that is
    "pending" or "paid". *)
Theorem basic_actions_write_any_number
    (id : string) (formData : FormData) (w : World) (q : Statement) :
  q ∈ statements (Basic.createInvoice formData w).1
  ∨ q ∈ statements (Basic.updateInvoice id formData w).1 →
  ∃ customerId status,
    get formData "customerId" = Str customerId ∧
    get formData "status" = Str status ∧
    (status = "pending" ∨ status = "paid") ∧
    is_nan (Number (get formData "amount")) = false ∧
    (q = INSERT_INTO_invoices customerId (Number (get formData "amount") * 100)%float status
           (split_0 "T" (toISOString (clock w)))
     ∨ q = UPDATE_invoices customerId (Number (get formData "amount") * 100)%float status id).
Proof.
  destruct (ZodObject.safeParse Basic.CreateInvoice (rawOf formData)) as [d|e] eqn:H.
  - rewrite (basic_createInvoice_valid _ w _ H), (proj2 (updateInvoice_valid id _ w _) H).
    apply basic_success_iff in H as (Hc & Ha & Hnan & Hs & Hin%inEnum_spec).
    simpl in Hc, Ha, Hs. cbv zeta. unfold updateWith. rewrite <- Ha in *.
    intros Hq. exists (Data.customerId d), (Data.status d).
    repeat (split; [done|]).
    destruct Hq as [Hq|Hq]; destruct (database w _);
      unfold statements in Hq; cbn [omap list_omap fst] in Hq;
      apply list_elem_of_singleton in Hq as ->; first [by left | by right].
  - rewrite (basic_createInvoice_invalid _ w _ H), (proj2 (updateInvoice_invalid id _ w _) H).
    cbn. rewrite !elem_of_nil. tauto.
Qed.

Lemma basic_actions_write_any_number_witness :
  ∃ customerId status,
    get [("customerId", Str "c1"); ("amount", Str "-5"); ("status", Str "paid")]
      "customerId" = Str customerId ∧
    get [("customerId", Str "c1"); ("amount", Str "-5"); ("status", Str "paid")]
      "status" = Str status ∧
    (status = "pending" ∨ status = "paid") ∧
    is_nan (Number (Str "-5")) = false ∧
    (INSERT_INTO_invoices "c1" (Number (Str "-500")) "paid" "2025-06-19" =
       INSERT_INTO_invoices customerId (Number (Str "-5") * 100)%float status
         (split_0 "T" (toISOString 1750334400123))
     ∨ INSERT_INTO_invoices "c1" (Number (Str "-500")) "paid" "2025-06-19" =
       UPDATE_invoices customerId (Number (Str "-5") * 100)%float status "7").
Proof.
  apply (basic_actions_write_any_number "7"
           [("customerId", Str "c1"); ("amount", Str "-5"); ("status", Str "paid")] storeUp).
  left. vm_compute. left.
Defined.

(** ** The basic createInvoice *)

Lemma basic_accepts (formData : FormData) (customerId status : string) :
  get formData "customerId" = Str customerId →
  is_nan (Number (get formData "amount")) = false →
  get formData "status" = Str status →
  status = "pending" ∨ status = "paid" →
  ZodObject.safeParse Basic.CreateInvoice (rawOf formData) =
    success {| Data.customerId := customerId;
               Data.amount := Number (get formData "amount");
               Data.status := status |}.
Proof.
  intros Hc Ha Hs Hin. apply basic_success_iff. simpl.
  by rewrite Hc, Hs, inEnum_spec.
Qed.

(** X7.  For a payload with a string [customerId], an amount that coerces
    to a number and a status of the enumeration, the basic [createInvoice]
    sends one INSERT with the raw product [amount * 100] and the UTC date
    of the clock (within the years 0000 to 9999).  When the store accepts
    it, the listing is revalidated and the call redirects; when the store
    rejects it, the store's error is logged under "Error inserting
    invoice:" and [Error('Failed to create invoice')] is thrown. *)
Theorem basic_createInvoice_inserts_then_redirects_or_rethrows
    (formData : FormData) (w : World) (customerId status : string) :
  get formData "customerId" = Str customerId →
  is_nan (Number (get formData "amount")) = false →
  get formData "status" = Str status →
  status = "pending" ∨ status = "paid" →
  fourDigitYear (clock w) →
  Basic.createInvoice formData w =
    match database w (INSERT_INTO_invoices customerId
                        (Number (get formData "amount") * 100)%float status
                        (currentDate (clock w))) with
    | None =>
        ([Sql (INSERT_INTO_invoices customerId (Number (get formData "amount") * 100)%float
                 status (currentDate (clock w)));
          RevalidatePath "/dashboard/invoices"; Redirect "/dashboard/invoices"],
         Throw (NEXT_REDIRECT "/dashboard/invoices"))
    | Some detail =>
        ([Sql (INSERT_INTO_invoices customerId (Number (get formData "amount") * 100)%float
                 status (currentDate (clock w)));
          ConsoleError "Error inserting invoice:" (PostgresError detail)],
         Throw (Error "Failed to create invoice"))
    end.
Proof.
  intros Hc Ha Hs Hin Hclock.
  rewrite (basic_createInvoice_valid _ w _ (basic_accepts _ _ _ Hc Ha Hs Hin)).
  cbv zeta. cbn [Data.customerId Data.amount Data.status].
  by rewrite (toISOString_date _ Hclock).
Qed.

Lemma basic_createInvoice_inserts_then_redirects_or_rethrows_witness :
  Basic.createInvoice
    [("customerId", Str "c1"); ("amount", Str "-5"); ("status", Str "pending")] storeDown =
    ([Sql (INSERT_INTO_invoices "c1" (Number (Str "-5") * 100)%float "pending"
             (currentDate 1750334400123));
      ConsoleError "Error inserting invoice:" (PostgresError "connection refused")],
     Throw (Error "Failed to create invoice")).
Proof.
  apply (basic_createInvoice_inserts_then_redirects_or_rethrows
           [("customerId", Str "c1"); ("amount", Str "-5"); ("status", Str "pending")]
           storeDown "c1" "pending").
  - reflexivity.
  - vm_compute; reflexivity.
  - reflexivity.
  - left; reflexivity.
  - unfold fourDigitYear; simpl; lia.
Defined.

(** X8.  The basic [createInvoice] and [updateInvoice] throw a [ZodError],
    before any effect, exactly when the [customerId] is not a string, the
    amount coerces to NaN, or the status is not "pending" or "paid". *)
Theorem basic_actions_throw_ZodError_iff (id : string) (formData : FormData) (w : World) :
  let invalid :=
    ¬ (isString (get formData "customerId")
       ∧ is_nan (Number (get formData "amount")) = false
       ∧ (get formData "status" = Str "pending" ∨ get formData "status" = Str "paid")) in
  ((∃ issues, Basic.createInvoice formData w = ([], Throw (ZodError issues))) ↔ invalid) ∧
  ((∃ issues, Basic.updateInvoice id formData w = ([], Throw (ZodError issues))) ↔ invalid).
Proof.
  cbv zeta.
  destruct (ZodObject.safeParse Basic.CreateInvoice (rawOf formData)) as [d|e] eqn:H.
  - rewrite (basic_createInvoice_valid _ w _ H), (proj2 (updateInvoice_valid id _ w _) H).
    apply basic_success_iff in H as (Hc & Ha & Hnan & Hs & Hin%inEnum_spec).
    simpl in Hc, Ha, Hs. cbv zeta. unfold updateWith.
    assert (Hvalid : isString (get formData "customerId")
       ∧ is_nan (Number (get formData "amount")) = false
       ∧ (get formData "status" = Str "pending" ∨ get formData "status" = Str "paid")).
    { split; [by eexists|]. split; [by rewrite Ha|]. rewrite Hs. by destruct Hin as [->| ->]; [left|right]. }
    split; (split; [|tauto]); intros [issues Hrun]; destruct (database w _); discriminate Hrun.
  - rewrite (basic_createInvoice_invalid _ w _ H), (proj2 (updateInvoice_invalid id _ w _) H).
    assert (Hinvalid : ¬ (isString (get formData "customerId")
       ∧ is_nan (Number (get formData "amount")) = false
       ∧ (get formData "status" = Str "pending" ∨ get formData "status" = Str "paid"))).
    { intros ([c Hc] & Hnan & Hs).
      assert (∃ s, get formData "status" = Str s ∧ (s = "pending" ∨ s = "paid")) as (s & Hs' & Hin)
        by (destruct Hs as [Hs|Hs]; eexists; (split; [exact Hs|]); tauto).
      rewrite (basic_accepts _ _ _ Hc Hnan Hs' Hin) in H. discriminate. }
    split; (split; [done|]); intros _; by eexists.
Qed.

(** X9.  The [ZodError] of the basic schema lists the issues in the order
    of the fields, worded by zod's default error map: "Expected string,
    received null" (or "object" for a file) for the customer, "Expected
    number, received nan" for the amount, and for the status "Expected
    'pending' | 'paid', received null" or "Invalid enum value...". *)
Theorem basic_ZodError_issues (formData : FormData) (w : World) (issues : list ZodIssue) :
  Basic.createInvoice formData w = ([], Throw (ZodError issues)) →
  issues =
    match get formData "customerId" with
    | Str _ => []
    | v => [{| code := invalid_type; path := ["customerId"];
               message := "Expected string, received " +:+ getParsedType v |}]
    end ++
    (if is_nan (Number (get formData "amount"))
     then [{| code := invalid_type; path := ["amount"];
              message := "Expected number, received nan" |}]
     else []) ++
    match get formData "status" with
    | Str s =>
        if inEnum s then []
        else [{| code := invalid_enum_value; path := ["status"];
                 message := "Invalid enum value. Expected 'pending' | 'paid', received '"
                            +:+ s +:+ "'" |}]
    | v => [{| code := invalid_type; path := ["status"];
               message := "Expected 'pending' | 'paid', received " +:+ getParsedType v |}]
    end.
Proof.
  intros Hrun.
  destruct (ZodObject.safeParse Basic.CreateInvoice (rawOf formData)) as [d|e] eqn:H.
  - rewrite (basic_createInvoice_valid _ w _ H) in Hrun. cbv zeta in Hrun.
    destruct (database w _); discriminate Hrun.
  - rewrite (basic_createInvoice_invalid _ w _ H) in Hrun. injection Hrun as <-.
    apply safeParse_failure in H as ->.
    cbn [Omitted.customerId Omitted.amount Omitted.status Raw.customerId Raw.amount Raw.status
         Basic.CreateInvoice ZodObject.omit_id_date rawOf].
    change (Shape.customerId Basic.FormSchema) with (string_ noParams).
    change (Shape.status Basic.FormSchema) with (enum ["pending"; "paid"] noParams).
    rewrite parse_customerId, parse_status, parse_amount_basic.
    destruct (get formData "customerId"), (is_nan (Number (get formData "amount"))),
      (get formData "status") as [|st|]; try destruct (inEnum st); reflexivity.
Qed.

Lemma basic_ZodError_issues_witness :
  [{| code := invalid_type; path := ["customerId"];
      message := "Expected string, received null" |};
   {| code := invalid_type; path := ["amount"];
      message := "Expected number, received nan" |};
   {| code := invalid_enum_value; path := ["status"];
      message := "Invalid enum value. Expected 'pending' | 'paid', received 'overdue'" |}] =
    match get [("amount", Str "abc"); ("status", Str "overdue")] "customerId" with
    | Str _ => []
    | v => [{| code := invalid_type; path := ["customerId"];
               message := "Expected string, received " +:+ getParsedType v |}]
    end ++
    (if is_nan (Number (get [("amount", Str "abc"); ("status", Str "overdue")] "amount"))
     then [{| code := invalid_type; path := ["amount"];
              message := "Expected number, received nan" |}]
     else []) ++
    match get [("amount", Str "abc"); ("status", Str "overdue")] "status" with
    | Str s =>
        if inEnum s then []
        else [{| code := invalid_enum_value; path := ["status"];
                 message := "Invalid enum value. Expected 'pending' | 'paid', received '"
                            +:+ s +:+ "'" |}]
    | v => [{| code := invalid_type; path := ["status"];
               message := "Expected 'pending' | 'paid', received " +:+ getParsedType v |}]
    end.
Proof.
  apply (basic_ZodError_issues [("amount", Str "abc"); ("status", Str "overdue")] storeUp).
  vm_compute; reflexivity.
Defined.

(** ** The two schemas *)

(** X10.  The strict schema accepts exactly what the basic schema accepts
    with an amount above zero, and yields the same data. *)
Theorem strict_schema_is_basic_schema_with_positive_amount (raw : Raw.t) (d : Data.t) :
  ZodObject.safeParse Validated.CreateInvoice raw = success d ↔
  ZodObject.safeParse Basic.CreateInvoice raw = success d ∧ (0 <? Data.amount d)%float = true.
Proof.
  rewrite strict_success_iff, basic_success_iff. split.
  - intros (Hc & Ha & Hgt & Hs & Hin). repeat split; try done. by apply gt_zero_passes.
  - intros ((Hc & Ha & Hnan & Hs & Hin) & Hgt). done.
Qed.

(** ** The two versions of createInvoice *)

(** X11.  When the submitted amount does not coerce to a number at or
    below zero, the two versions of [createInvoice] send the same
    statements, and one leaves by the redirect exactly when the other
    does, after the same effects.  (They differ in how they report a
    failure: a returned state against a thrown error.) *)
Theorem createInvoice_versions_agree_on_success
    (prevState : Validated.State) (formData : FormData) (w : World) :
  (Number (get formData "amount") <=? 0)%float = false →
  statements (Validated.createInvoice prevState formData w).1 =
    statements (Basic.createInvoice formData w).1 ∧
  ((Validated.createInvoice prevState formData w).2 = Throw (NEXT_REDIRECT "/dashboard/invoices")
   ↔ (Basic.createInvoice formData w).2 = Throw (NEXT_REDIRECT "/dashboard/invoices")) ∧
  ((Basic.createInvoice formData w).2 = Throw (NEXT_REDIRECT "/dashboard/invoices") →
   (Validated.createInvoice prevState formData w).1 = (Basic.createInvoice formData w).1).
Proof.
  intros Hle.
  destruct (ZodObject.safeParse Validated.CreateInvoice (rawOf formData)) as [d|e2] eqn:H2.
  - assert (H1 : ZodObject.safeParse Basic.CreateInvoice (rawOf formData) = success d)
      by (apply strict_success_iff in H2 as (Hc & Ha & Hgt & Hs & Hin);
          apply basic_success_iff; repeat split; try done; by apply gt_zero_passes).
    rewrite (createInvoice_valid _ _ w _ H2), (basic_createInvoice_valid _ w _ H1).
    cbv zeta. destruct (database w _); cbn [fst snd]; repeat split; done.
  - destruct (ZodObject.safeParse Basic.CreateInvoice (rawOf formData)) as [d|e1] eqn:H1.
    + exfalso. apply basic_success_iff in H1 as (Hc & Ha & Hnan & Hs & Hin).
      assert (H : ZodObject.safeParse Validated.CreateInvoice (rawOf formData) = success d).
      { apply strict_success_iff. repeat split; try done.
        apply not_gt_zero_too_small_contra; [done|]. rewrite <- Ha. exact Hle. }
      rewrite H in H2. discriminate.
    + rewrite (createInvoice_invalid _ _ w _ H2), (basic_createInvoice_invalid _ w _ H1).
      cbn [fst snd]. repeat split; done.
Qed.

Lemma createInvoice_versions_agree_on_success_witness :
  let formData := [("customerId", Str "c1"); ("amount", Str "19.99"); ("status", Str "paid")] in
  statements (Validated.createInvoice noState formData storeUp).1 =
    statements (Basic.createInvoice formData storeUp).1 ∧
  ((Validated.createInvoice noState formData storeUp).2
     = Throw (NEXT_REDIRECT "/dashboard/invoices")
   ↔ (Basic.createInvoice formData storeUp).2 = Throw (NEXT_REDIRECT "/dashboard/invoices")) ∧
  ((Basic.createInvoice formData storeUp).2 = Throw (NEXT_REDIRECT "/dashboard/invoices") →
   (Validated.createInvoice noState formData storeUp).1 = (Basic.createInvoice formData storeUp).1).
Proof.
  intros formData. apply (createInvoice_versions_agree_on_success noState formData storeUp).
  vm_compute; reflexivity.
Defined.

(** ** The field errors *)

(** X12.  The [errors] that [createInvoice] returns have a key exactly for
    each failing field, with exactly one message: a valid field has no
    key, no other key exists, and the mapping is never empty.  An amount
    that coerces to NaN is reported with zod's own "Expected number,
    received nan", not with the amount message of the schema. *)
Theorem createInvoice_errors_exact
    (prevState : Validated.State) (formData : FormData) (w : World)
    (errors : gmap string (list string)) (msg : option string) :
  Validated.createInvoice prevState formData w =
    ([], Return {| Validated.errors := Some errors; Validated.message := msg |}) →
  errors !! "customerId" =
    match get formData "customerId" with
    | Str _ => None
    | _ => Some ["Please select a customer."]
    end ∧
  errors !! "amount" =
    (if is_nan (Number (get formData "amount")) then Some ["Expected number, received nan"]
     else if (0 <? Number (get formData "amount"))%float then None
     else Some ["Please enter an amount greater than $0."]) ∧
  errors !! "status" =
    match get formData "status" with
    | Str s => if inEnum s then None else Some [invalidEnumMessage s]
    | _ => Some ["Please select an invoice status."]
    end ∧
  (∀ key, key ∉ ["customerId"; "amount"; "status"] → errors !! key = None) ∧
  errors ≠ ∅.
Proof.
  intros Hrun.
  destruct (ZodObject.safeParse Validated.CreateInvoice (rawOf formData)) as [d|e] eqn:H.
  { rewrite (createInvoice_valid _ _ w _ H) in Hrun. cbv zeta in Hrun.
    destruct (database w _); discriminate Hrun. }
  rewrite (createInvoice_invalid _ _ w _ H) in Hrun. injection Hrun as <- _.
  destruct (strict_fieldErrors _ _ H) as (Ec & Ea & Es). simpl in Ec, Ea, Es.
  assert (Ea' : fieldErrors (flatten e) !! "amount" =
    (if is_nan (Number (get formData "amount")) then Some ["Expected number, received nan"]
     else if (0 <? Number (get formData "amount"))%float then None
     else Some [amountMessage])).
  { rewrite Ea. destruct (is_nan (Number (get formData "amount"))) eqn:Hnan; [done|].
    destruct (0 <? Number (get formData "amount"))%float eqn:Hgt.
    - by rewrite (proj2 (gt_zero_passes _ Hgt)).
    - by rewrite (not_gt_zero_too_small _ Hnan Hgt). }
  split; [exact Ec|]. split; [exact Ea'|]. split; [exact Es|]. split.
  - intros key Hkey. rewrite flatten_fieldErrors.
    rewrite (safeParse_failure _ _ _ H), !messagesAt_app, !messagesAt_parse.
    rewrite !decide_False; [done|..]; intros <-; apply Hkey; set_solver.
  - intros Hempty. rewrite Hempty, !lookup_empty in Ec, Ea', Es.
    destruct (get formData "customerId") as [|c|] eqn:Hc; try discriminate Ec.
    destruct (is_nan (Number (get formData "amount"))) eqn:Hnan; [discriminate Ea'|].
    destruct (0 <? Number (get formData "amount"))%float eqn:Hgt; [|discriminate Ea'].
    destruct (get formData "status") as [|s|] eqn:Hs; try discriminate Es.
    destruct (inEnum s) eqn:Hin; [|discriminate Es].
    apply inEnum_spec in Hin.
    rewrite (strict_accepts _ _ _ Hc Hgt Hs Hin) in H. discriminate.
Qed.

Lemma createInvoice_errors_exact_witness :
  let formData := [("customerId", Str "c1"); ("amount", Str "abc"); ("status", File "s.txt")] in
  ({[ "amount" := ["Expected number, received nan"];
      "status" := ["Please select an invoice status."] ]} : gmap string (list string))
    !! "amount" = Some ["Expected number, received nan"] ∧
  ({[ "amount" := ["Expected number, received nan"];
      "status" := ["Please select an invoice status."] ]} : gmap string (list string))
    !! "customerId" = None.
Proof.
  intros formData.
  destruct (createInvoice_errors_exact noState formData storeUp
              {[ "amount" := ["Expected number, received nan"];
                 "status" := ["Please select an invoice status."] ]}
              (Some "Missing Fields. Failed to Create Invoice."))
    as (Hc & Ha & _).
  { vm_compute; reflexivity. }
  split; [exact Ha|exact Hc].
Defined.

(** ** What the actions read *)

(** X13.  The actions read the form through the first value of
    [customerId], [amount] and [status] only: two forms that agree on
    those (whatever other fields, duplicates or order they have) give the
    same effects and completion, and [createInvoice] does not depend on
    the previous state. *)
Theorem actions_read_three_fields_only
    (prevState prevState' : Validated.State) (id : string) (formData formData' : FormData)
    (w : World) :
  get formData "customerId" = get formData' "customerId" →
  get formData "amount" = get formData' "amount" →
  get formData "status" = get formData' "status" →
  Validated.createInvoice prevState formData w = Validated.createInvoice prevState' formData' w ∧
  Validated.updateInvoice id formData w = Validated.updateInvoice id formData' w ∧
  Basic.createInvoice formData w = Basic.createInvoice formData' w ∧
  Basic.updateInvoice id formData w = Basic.updateInvoice id formData' w.
Proof.
  intros Hc Ha Hs.
  unfold Validated.createInvoice, Validated.updateInvoice, Basic.createInvoice,
    Basic.updateInvoice.
  by rewrite Hc, Ha, Hs.
Qed.

Lemma actions_read_three_fields_only_witness :
  let formData := [("customerId", Str "c1"); ("amount", Str "5"); ("status", Str "paid")] in
  let formData' := [("id", Str "42"); ("status", Str "paid"); ("date", Str "1999-01-01");
                    ("amount", Str "5"); ("customerId", Str "c1"); ("amount", Str "-1")] in
  Validated.createInvoice noState formData storeUp =
    Validated.createInvoice
      {| Validated.errors := None; Validated.message := Some "before" |} formData' storeUp ∧
  Validated.updateInvoice "7" formData storeUp = Validated.updateInvoice "7" formData' storeUp ∧
  Basic.createInvoice formData storeUp = Basic.createInvoice formData' storeUp ∧
  Basic.updateInvoice "7" formData storeUp = Basic.updateInvoice "7" formData' storeUp.
Proof.
  intros formData formData'.
  apply (actions_read_three_fields_only noState
           {| Validated.errors := None; Validated.message := Some "before" |}
           "7" formData formData' storeUp); reflexivity.
Defined.

(** ** The date of a new invoice *)

(** X14.  For a clock within the years 0000 to 9999, the date that
    [createInvoice] computes, [new Date().toISOString().split('T')[0]],
    is the UTC calendar day of the clock: four digits of a year [y], two
    of a month [m] from 1 to 12 and two of a day [d] of that month, such
    that day [d] of month [m] of year [y] is the day number
    [floor (t / 86400000)] of the clock. *)
Theorem invoice_date_is_utc_calendar_day (t : Z) :
  fourDigitYear t →
  ∃ y m d,
    split_0 "T" (toISOString t) =
      padDigits 4 y (String "-" (padDigits 2 m (String "-" (padDigits 2 d EmptyString)))) ∧
    is_YYYY_MM_DD (split_0 "T" (toISOString t)) = true ∧
    0 ≤ y ≤ 9999 ∧ 1 ≤ m ≤ 12 ∧
    1 ≤ d ≤ monthStart (InLeapYear y) (m + 1) - monthStart (InLeapYear y) m ∧
    DayFromYear y + monthStart (InLeapYear y) m + (d - 1) = t / 86400000.
Proof.
  intros Ht. rewrite (toISOString_date t Ht).
  exists (YearFromTime t), (MonthFromTime t + 1), (DateFromTime t).
  split; [reflexivity|]. split; [apply currentDate_form|].
  destruct (date_fields_bounds t) as (Hm & Hd & Hy). specialize (Hy Ht).
  split; [exact Hy|]. split; [exact Hm|].
  unfold MonthFromTime, DateFromTime, YearFromTime in *.
  pose proof (civilFromDays_correct (Day t)) as H.
  change (t / 86400000) with (Day t).
  destruct (civilFromDays (Day t)) as [[y m] d]. simpl in *.
  destruct H as (_ & Hz & ->).
  replace (m - 1 + 1) with m by lia. lia.
Qed.

Lemma invoice_date_is_utc_calendar_day_witness :
  ∃ y m d,
    split_0 "T" (toISOString 1750334400123) =
      padDigits 4 y (String "-" (padDigits 2 m (String "-" (padDigits 2 d EmptyString)))) ∧
    is_YYYY_MM_DD (split_0 "T" (toISOString 1750334400123)) = true ∧
    0 ≤ y ≤ 9999 ∧ 1 ≤ m ≤ 12 ∧
    1 ≤ d ≤ monthStart (InLeapYear y) (m + 1) - monthStart (InLeapYear y) m ∧
    DayFromYear y + monthStart (InLeapYear y) m + (d - 1) = 1750334400123 / 86400000.
Proof.
  apply (invoice_date_is_utc_calendar_day 1750334400123).
  unfold fourDigitYear; simpl; lia.
Defined.

(** ** Amounts of white space *)

Lemma trimStart_allWhiteSpace (s : string) : allWhiteSpace s = true → trimStart s = EmptyString.
Proof.
  induction s as [|c s IH]; [done|].
  cbn [allWhiteSpace trimStart]. intros [-> Hs]%andb_true_iff. by apply IH.
Qed.

(** X15.  An amount made of white space only (spaces, tabs, line breaks,
    or nothing at all) coerces to 0: [createInvoice] with form state
    reports "Please enter an amount greater than $0." for it, while the
    basic [createInvoice] accepts it and any INSERT it sends carries the
    amount 0. *)
Theorem white_space_amount_is_zero
    (prevState : Validated.State) (formData : FormData) (w : World) (s : string) :
  get formData "amount" = Str s →
  allWhiteSpace s = true →
  Number (get formData "amount") = 0%float ∧
  (∃ errors,
     Validated.createInvoice prevState formData w =
       ([], Return {| Validated.errors := Some errors;
                      Validated.message := Some "Missing Fields. Failed to Create Invoice." |}) ∧
     errors !! "amount" = Some ["Please enter an amount greater than $0."]) ∧
  (∀ q, q ∈ statements (Basic.createInvoice formData w).1 →
     ∃ customerId status date, q = INSERT_INTO_invoices customerId 0 status date).
Proof.
  intros Ha Hws.
  assert (Hzero : Number (get formData "amount") = 0%float).
  { rewrite Ha. unfold Number, StringToNumber, trim. by rewrite trimStart_allWhiteSpace. }
  split; [exact Hzero|]. split.
  - destruct (ZodObject.safeParse Validated.CreateInvoice (rawOf formData)) as [d|e] eqn:H.
    + apply strict_success_iff in H as (_ & Hd & Hgt & _). simpl in Hd.
      rewrite <- Hd, Hzero in Hgt. discriminate Hgt.
    + eexists. split; [by apply createInvoice_invalid|].
      destruct (strict_fieldErrors _ _ H) as (_ & Ea & _). simpl in Ea.
      rewrite Ea, Hzero. reflexivity.
  - intros q Hq.
    destruct (ZodObject.safeParse Basic.CreateInvoice (rawOf formData)) as [d|e] eqn:H.
    + rewrite (basic_createInvoice_valid _ w _ H) in Hq. cbv zeta in Hq.
      apply basic_success_iff in H as (_ & Hd & _). simpl in Hd.
      rewrite <- Hd, Hzero in Hq.
      destruct (database w _); unfold statements in Hq; cbn [omap list_omap fst] in Hq;
        apply list_elem_of_singleton in Hq as ->; by eexists _, _, _.
    + rewrite (basic_createInvoice_invalid _ w _ H) in Hq. by apply elem_of_nil in Hq.
Qed.

Lemma white_space_amount_is_zero_witness :
  let formData := [("customerId", Str "c1"); ("amount", Str "  "); ("status", Str "paid")] in
  Number (get formData "amount") = 0%float ∧
  (∃ errors,
     Validated.createInvoice noState formData storeUp =
       ([], Return {| Validated.errors := Some errors;
                      Validated.message := Some "Missing Fields. Failed to Create Invoice." |}) ∧
     errors !! "amount" = Some ["Please enter an amount greater than $0."]) ∧
  (∀ q, q ∈ statements (Basic.createInvoice formData storeUp).1 →
     ∃ customerId status date, q = INSERT_INTO_invoices customerId 0 status date).
Proof.
  intros formData.
  apply (white_space_amount_is_zero noState formData storeUp "  "); reflexivity.
Defined.
